(** * Flight-metrics aggregation of the pilot portal

    A shallow embedding of the client-side aggregation code of the portal
    (flight summary, fuel analysis, route analytics, passenger summary, the
    realtime handlers and the flight entry form), and the properties of the
    specification that are settled against it.

    JavaScript numbers are IEEE 754 binary64 values: they are embedded as
    Rocq's primitive floats, so that [+], [-], [*], [/] and the comparisons
    are the ones the program runs.  Record fields that the declared types
    give as [number] or [string] range over a value of that type,
    [undefined] or [null]. *)

From Stdlib Require Import ZArith List String Ascii Bool Lia.
From Stdlib Require Import Floats Permutation.
Import ListNotations.
Local Open Scope string_scope.
Local Open Scope list_scope.
Set Warnings "-inexact-float".

(** ** JavaScript values and built-ins *)

Module JS.

Definition number := float.

(** A property that may be missing ([undefined]) or [null]. *)
Inductive opt (A : Type) : Type :=
| undefined : opt A
| null : opt A
| val : A -> opt A.
Arguments undefined {A}.
Arguments null {A}.
Arguments val {A} _.

(** ToBoolean on a number: [0], [-0] and [NaN] are falsy. *)
Definition truthy_number (x : number) : bool :=
  negb (PrimFloat.is_zero x || PrimFloat.is_nan x).

Definition truthy_num (v : opt number) : bool :=
  match v with val x => truthy_number x | _ => false end.

(** ToBoolean on a string: only the empty string is falsy. *)
Definition truthy_str (v : opt string) : bool :=
  match v with val s => negb (s =? "") | _ => false end.

(** [x || y] on numbers. *)
Definition or_number (x y : number) : number :=
  if truthy_number x then x else y.

(** [v || d] where [v] is a possibly missing number. *)
Definition num_or (v : opt number) (d : number) : number :=
  match v with val x => or_number x d | _ => d end.

(** [v || d] where [v] is a possibly missing string. *)
Definition str_or (v : opt string) (d : string) : string :=
  match v with val s => if s =? "" then d else s | _ => d end.

(** [typeof v === 'number' ? v : d]. *)
Definition number_or (v : opt number) (d : number) : number :=
  match v with val x => x | _ => d end.

(** [parseFloat(v)] for a number, [undefined] or [null]: the argument is
    first printed, so [-0] comes back as [0], every other number as itself,
    and ["undefined"] and ["null"] do not parse. *)
Definition parseFloat (v : opt number) : number :=
  match v with
  | val x => if PrimFloat.is_zero x then 0%float else x
  | _ => nan
  end.

(** [a > b] and [a < b]; both are false when an operand is [NaN]. *)
Definition gt (a b : number) : bool := (b <? a)%float.
Definition lt (a b : number) : bool := (a <? b)%float.

(** [a + v] where [v] is a possibly missing number: ToNumber(undefined) is
    [NaN] and ToNumber(null) is [0]. *)
Definition add_opt (a : number) (v : opt number) : number :=
  match v with
  | val x => (a + x)%float
  | null => (a + 0)%float
  | undefined => (a + nan)%float
  end.

(** An integer as a number: the nearest binary64 value. *)
Definition of_Z (z : Z) : number :=
  SF2Prim (binary_normalize prec emax z 0 false).

(** An array length or a counter, as a number. *)
Definition of_nat (n : nat) : number := of_Z (Z.of_nat n).

(** [v === y] between a possibly missing number and a number. *)
Definition num_eq (v : opt number) (y : number) : bool :=
  match v with val x => (x =? y)%float | _ => false end.

(** [v === s] between a possibly missing string and a string. *)
Definition str_eq (v : opt string) (s : string) : bool :=
  match v with val x => x =? s | _ => false end.

(** *** [parseInt] with one argument *)

Definition is_space (c : ascii) : bool :=
  let n := nat_of_ascii c in (n =? 32)%nat || ((9 <=? n)%nat && (n <=? 13)%nat).

Fixpoint trim_start (s : string) : string :=
  match s with
  | String c s' => if is_space c then trim_start s' else s
  | EmptyString => s
  end.

Definition digit_of (radix : Z) (c : ascii) : option Z :=
  let n := Z.of_nat (nat_of_ascii c) in
  let d := if (48 <=? n)%Z && (n <=? 57)%Z then Some (n - 48)%Z
           else if (97 <=? n)%Z && (n <=? 122)%Z then Some (n - 87)%Z
           else if (65 <=? n)%Z && (n <=? 90)%Z then Some (n - 55)%Z
           else None in
  match d with
  | Some v => if (v <? radix)%Z then Some v else None
  | None => None
  end.

Fixpoint leading_digits (radix : Z) (acc : option Z) (s : string) : option Z :=
  match s with
  | String c s' =>
      match digit_of radix c with
      | Some d =>
          leading_digits radix
            (Some (radix * match acc with Some a => a | None => 0 end + d)%Z) s'
      | None => acc
      end
  | EmptyString => acc
  end.

Definition parseInt (s : string) : number :=
  let s := trim_start s in
  let '(negative, s) :=
    match s with
    | String "-" s' => (true, s')
    | String "+" s' => (false, s')
    | _ => (false, s)
    end in
  let '(radix, s) :=
    match s with
    | String "0" (String x s') =>
        if (x =? "x")%char || (x =? "X")%char then (16%Z, s') else (10%Z, s)
    | _ => (10%Z, s)
    end in
  match leading_digits radix None s with
  | None => nan
  | Some n => if negative then (- of_Z n)%float else of_Z n
  end.

(** [Math.max(a, b)]. *)
Definition Math_max (a b : number) : number :=
  if PrimFloat.is_nan a || PrimFloat.is_nan b then nan
  else if (a <? b)%float then b
  else if (b <? a)%float then a
  else if PrimFloat.is_zero a && PrimFloat.get_sign a then b
  else a.

(** *** [toFixed] and reading its result back *)

(** The text [x.toFixed(f)] produces: ["NaN"], an infinity, or a sign and
    the integer [n] for which [n / 10^f] is nearest to [|x|] (the larger
    [n] on a tie).  From 10^21 on the program prints the shortest decimal
    that reads back as [x]; [x] is an integer there and [n / 10^f] is
    [x] itself, so both texts denote the same number. *)
Inductive fixed : Type :=
| FixedNaN : fixed
| FixedInfinity (negative : bool) : fixed
| FixedDecimal (negative : bool) (n : Z) (digits : nat) : fixed.

Definition toFixed (x : number) (f : nat) : fixed :=
  match Prim2SF x with
  | S754_nan => FixedNaN
  | S754_infinity s => FixedInfinity s
  | S754_zero _ => FixedDecimal false 0 f
  | S754_finite s m e =>
      let scaled := (Z.pos m * 10 ^ Z.of_nat f)%Z in
      let n := match e with
               | Zneg p => ((2 * scaled + 2 ^ Z.pos p) / (2 * 2 ^ Z.pos p))%Z
               | _ => (scaled * 2 ^ e)%Z
               end in
      FixedDecimal s n f
  end.

(** [parseFloat] on such a text: the binary64 value nearest to the
    decimal. *)
Definition parseFloat_fixed (t : fixed) : number :=
  match t with
  | FixedNaN => nan
  | FixedInfinity s => if s then neg_infinity else infinity
  | FixedDecimal s n f =>
      match n with
      | Zpos p =>
          SF2Prim (SFdiv prec emax (S754_finite s p 0)
                     (S754_finite false (Z.to_pos (10 ^ Z.of_nat f)) 0))
      | _ => if s then neg_zero else zero
      end
  end.

(** [parseFloat(x.toFixed(f))]. *)
Definition round_to (f : nat) (x : number) : number :=
  parseFloat_fixed (toFixed x f).

(** *** Objects used as string-keyed maps *)

(** ToPropertyKey on a possibly missing string. *)
Definition ToPropertyKey (v : opt string) : string :=
  match v with undefined => "undefined" | null => "null" | val s => s end.

(** An object is the list of its own properties in creation order.  The
    objects of this program are created empty and only ever receive
    record identifiers and labels as keys; properties inherited from
    [Object.prototype] are not part of the embedding. *)
Definition object (V : Type) : Type := list (string * V).

Fixpoint get {V} (o : object V) (k : string) : option V :=
  match o with
  | [] => None
  | (k', v) :: o' => if k' =? k then Some v else get o' k
  end.

(** [o[k] = v]: overwrite in place, or create the property last. *)
Fixpoint set {V} (o : object V) (k : string) (v : V) : object V :=
  match o with
  | [] => [(k, v)]
  | (k', v') :: o' => if k' =? k then (k', v) :: o' else (k', v') :: set o' k v
  end.

(** [if (!o[k]) o[k] = init; o[k] = f(o[k])], where every stored value is
    an object or an array and therefore truthy. *)
Definition upsert {V} (o : object V) (k : string) (init : V) (f : V -> V) : object V :=
  set o k (f (match get o k with Some v => v | None => init end)).

Definition is_digit (c : ascii) : bool :=
  let n := nat_of_ascii c in (48 <=? n)%nat && (n <=? 57)%nat.

Fixpoint digits_value (acc : Z) (s : string) : option Z :=
  match s with
  | EmptyString => Some acc
  | String c s' =>
      if is_digit c
      then digits_value (10 * acc + Z.of_nat (nat_of_ascii c - 48)) s'
      else None
  end.

(** An array index: a canonical decimal numeral below 2^32 - 1. *)
Definition array_index (k : string) : option Z :=
  match k with
  | EmptyString => None
  | String c rest =>
      if (c =? "0")%char && negb (rest =? "") then None
      else match digits_value 0 k with
           | Some n => if (n <? 2 ^ 32 - 1)%Z then Some n else None
           | None => None
           end
  end.

Fixpoint insert_index {V} (n : Z) (p : string * V)
    (l : list (Z * (string * V))) : list (Z * (string * V)) :=
  match l with
  | [] => [(n, p)]
  | (m, q) :: l' =>
      if (n <? m)%Z then (n, p) :: l else (m, q) :: insert_index n p l'
  end.

Fixpoint index_properties {V} (o : object V) : list (Z * (string * V)) :=
  match o with
  | [] => []
  | (k, v) :: o' =>
      match array_index k with
      | Some n => insert_index n (k, v) (index_properties o')
      | None => index_properties o'
      end
  end.

Definition is_array_index (k : string) : bool :=
  match array_index k with Some _ => true | None => false end.

(** [Object.entries(o)]: array indices in ascending order, then the other
    keys in creation order. *)
Definition entries {V} (o : object V) : list (string * V) :=
  map snd (index_properties o)
    ++ filter (fun p => negb (is_array_index (fst p))) o.

(** [Object.values(o)]. *)
Definition values {V} (o : object V) : list V := map snd (entries o).

(** *** [Array.prototype.sort] *)

(** The sort is stable; [cmp a b > 0] puts [a] after [b].  With a
    comparator that is not a consistent order the result depends on the
    engine's algorithm; this is insertion of each element, from the last
    to the first, in front of the first element it need not follow. *)
Fixpoint sort_insert {A} (cmp : A -> A -> number) (x : A) (l : list A) : list A :=
  match l with
  | [] => [x]
  | y :: l' =>
      if gt (cmp x y) 0%float then y :: sort_insert cmp x l' else x :: l
  end.

Definition sort {A} (cmp : A -> A -> number) (l : list A) : list A :=
  fold_right (sort_insert cmp) [] l.

(** *** Signs *)

(** A binary64 value that is neither negative nor [NaN]. *)
Definition SFnotNegative (f : spec_float) : Prop :=
  match f with
  | S754_zero _ => True
  | S754_infinity s | S754_finite s _ _ => s = false
  | S754_nan => False
  end.

(** A binary64 value that is neither positive nor [NaN]. *)
Definition SFnotPositive (f : spec_float) : Prop :=
  match f with
  | S754_zero _ => True
  | S754_infinity s | S754_finite s _ _ => s = true
  | S754_nan => False
  end.

Definition notNegative (x : number) : Prop := SFnotNegative (Prim2SF x).
Definition notPositive (x : number) : Prop := SFnotPositive (Prim2SF x).

(** *** Grouping *)

(** The object [o] groups the elements of [l] that [keep] holds of by
    their [key]: its keys are the keys of these elements, each once, and
    every group counts at least one element. *)
Definition groups {A V} (key : A -> string) (keep : A -> bool) (size : V -> nat)
    (o : object V) (l : list A) : Prop :=
  NoDup (map fst o)
  /\ (forall k, In k (map fst o) <-> exists x, In x l /\ keep x = true /\ key x = k)
  /\ Forall (fun p => (1 <= size (snd p))%nat) o.

(** *** Strings and arrays *)

(** [s.includes(sub)]. *)
Fixpoint includes (s sub : string) : bool :=
  if String.prefix sub s then true
  else match s with
       | EmptyString => false
       | String _ s' => includes s' sub
       end.

(** [self.indexOf(value)] on an array of numbers: the first index whose
    element is [===] to the value; [None] is -1. *)
Fixpoint indexOf (self : list number) (value : number) : option nat :=
  match self with
  | [] => None
  | x :: rest =>
      if (x =? value)%float then Some 0%nat else option_map S (indexOf rest value)
  end.

(** [self.filter((value, index) => p(value, index))], from index [i] on. *)
Fixpoint filter_from {A} (p : A -> nat -> bool) (i : nat) (self : list A) : list A :=
  match self with
  | [] => []
  | x :: rest =>
      if p x i then x :: filter_from p (S i) rest else filter_from p (S i) rest
  end.

End JS.

(** ** Dates *)

(** A [Date] read in the viewer's time zone: calendar day and the
    milliseconds since local midnight.  Instants are compared through these
    fields. *)
Module Date.

Record t : Type := mk { year : Z; month : Z; day : Z; time : Z }.

Definition isLeapYear (y : Z) : bool :=
  ((y mod 4 =? 0)%Z && negb (y mod 100 =? 0)%Z) || (y mod 400 =? 0)%Z.

(** Months are numbered from 0, as [getMonth] does. *)
Definition daysInMonth (y m : Z) : Z :=
  match m with
  | 1 => if isLeapYear y then 29 else 28
  | 3 | 5 | 8 | 10 => 30
  | _ => 31
  end%Z.

Definition valid (d : t) : bool :=
  (0 <=? month d)%Z && (month d <=? 11)%Z
  && (1 <=? day d)%Z && (day d <=? daysInMonth (year d) (month d))%Z
  && (0 <=? time d)%Z && (time d <? 86400000)%Z.

Definition compare (a b : t) : comparison :=
  match (year a ?= year b)%Z with
  | Eq => match (month a ?= month b)%Z with
          | Eq => match (day a ?= day b)%Z with
                  | Eq => (time a ?= time b)%Z
                  | c => c
                  end
          | c => c
          end
  | c => c
  end.

(** [a <= b] on the instants. *)
Definition leb (a b : t) : bool :=
  match compare a b with Gt => false | _ => true end.

Definition monthIndex (d : t) : Z := (12 * year d + month d)%Z.

(** Midnight of the first day of the month with the given index. *)
Definition firstOfMonth (i : Z) : t :=
  {| year := (i / 12)%Z; month := (i mod 12)%Z; day := 1; time := 0 |}.

(** [getMonth()] and [getFullYear()]; [None] is an Invalid Date. *)
Definition getMonth (d : option t) : JS.number :=
  match d with Some d => JS.of_Z (month d) | None => nan end.

Definition getFullYear (d : option t) : JS.number :=
  match d with Some d => JS.of_Z (year d) | None => nan end.


End Date.

(** The functions of the date library that the passenger summary calls. *)
Module DateFns.





(** [currentMonth.setMonth(currentMonth.getMonth() + 1)] on a first of the
    month. *)
Definition nextMonth (d : Date.t) : Date.t :=
  let i := (Date.monthIndex d + 1)%Z in
  {| Date.year := (i / 12)%Z; Date.month := (i mod 12)%Z;
     Date.day := Date.day d; Date.time := Date.time d |}.

(** The loop of [eachMonthOfInterval]:
    [while (currentMonth.getTime() <= endTime) { push; setMonth(+1) }]. *)
Fixpoint eachMonthLoop (fuel : nat) (currentMonth endDate : Date.t) : list Date.t :=
  match fuel with
  | O => []
  | S fuel' =>
      if Date.leb currentMonth endDate
      then currentMonth :: eachMonthLoop fuel' (nextMonth currentMonth) endDate
      else []
  end.






End DateFns.

(** ** The records of the data model, with the fields the code reads *)

Module Flight.
Record t : Type := mk {
  id : string;
  aircraftId : JS.opt string;
  pilotId : JS.opt string;
  date : string;
  tachStart : JS.opt JS.number;
  tachEnd : JS.opt JS.number;
  hobbsTime : JS.opt JS.number;
  fuelAdded : JS.opt JS.number;
  oilAdded : JS.opt JS.number;
  passengerCount : JS.opt JS.number;
  route : JS.opt string;
  squawks : JS.opt string;
  notes : JS.opt string;
  createdAt : JS.opt string;
  updatedAt : JS.opt string;
  category : JS.opt string;
  departureTime : JS.opt string;
  pilotName : JS.opt string
}.
End Flight.

(** A row of the [flights] table as the realtime channel delivers it. *)
Module FlightRow.
Record t : Type := mk {
  id : string;
  aircraft_id : JS.opt string;
  pilot_id : JS.opt string;
  date : string;
  tach_start : JS.opt JS.number;
  tach_end : JS.opt JS.number;
  hobbs_time : JS.opt JS.number;
  fuel_added : JS.opt JS.number;
  oil_added : JS.opt JS.number;
  passenger_count : JS.opt JS.number;
  route : JS.opt string;
  squawks : JS.opt string;
  notes : JS.opt string;
  created_at : JS.opt string;
  updated_at : JS.opt string;
  category : JS.opt string;
  departure_time : JS.opt string;
  pilot_name : JS.opt string
}.
End FlightRow.

Module Aircraft.
Record t : Type := mk {
  id : string;
  tailNumber : JS.opt string;
  make : JS.opt string;
  model : JS.opt string
}.
End Aircraft.

Module RouteTargetTime.
Record t : Type := mk {
  id : string;
  route : string;
  targetTime : JS.opt JS.number;
  aircraftId : JS.opt string;
  pilotId : JS.opt string;
  month : JS.opt JS.number;
  year : JS.opt JS.number
}.
End RouteTargetTime.

(** ** FlightSummaryOverview.tsx *)

Module FlightSummaryOverview.

(** *** The realtime handlers of the [flights] table *)

Definition flightOfRow (r : FlightRow.t) : Flight.t :=
  {| Flight.id := FlightRow.id r;
     Flight.aircraftId := FlightRow.aircraft_id r;
     Flight.pilotId := FlightRow.pilot_id r;
     Flight.date := FlightRow.date r;
     Flight.tachStart := FlightRow.tach_start r;
     Flight.tachEnd := FlightRow.tach_end r;
     Flight.hobbsTime := FlightRow.hobbs_time r;
     Flight.fuelAdded := FlightRow.fuel_added r;
     Flight.oilAdded := FlightRow.oil_added r;
     Flight.passengerCount := FlightRow.passenger_count r;
     Flight.route := FlightRow.route r;
     Flight.squawks := FlightRow.squawks r;
     Flight.notes := FlightRow.notes r;
     Flight.createdAt := FlightRow.created_at r;
     Flight.updatedAt := FlightRow.updated_at r;
     Flight.category := FlightRow.category r;
     Flight.departureTime := FlightRow.departure_time r;
     Flight.pilotName := FlightRow.pilot_name r |}.

(** Each handler is the function it passes to [setFlights]. *)
Definition onInsert (newFlight : FlightRow.t) (prevFlights : list Flight.t) : list Flight.t :=
  let exists_ := existsb (fun flight => Flight.id flight =? FlightRow.id newFlight) prevFlights in
  if exists_ then prevFlights else prevFlights ++ [flightOfRow newFlight].

Definition onUpdate (updatedFlight : FlightRow.t) (prevFlights : list Flight.t) : list Flight.t :=
  map (fun flight =>
         if Flight.id flight =? FlightRow.id updatedFlight
         then flightOfRow updatedFlight else flight)
      prevFlights.

Definition onDelete (deletedFlight : FlightRow.t) (prevFlights : list Flight.t) : list Flight.t :=
  filter (fun flight => negb (Flight.id flight =? FlightRow.id deletedFlight)) prevFlights.

(** The notifications of the channel, applied in arrival order. *)
Inductive event : Type :=
| Insert (r : FlightRow.t)
| Update (r : FlightRow.t)
| Delete (r : FlightRow.t).

Definition apply (flights : list Flight.t) (e : event) : list Flight.t :=
  match e with
  | Insert r => onInsert r flights
  | Update r => onUpdate r flights
  | Delete r => onDelete r flights
  end.

Definition applyAll (flights : list Flight.t) (es : list event) : list Flight.t :=
  fold_left apply es flights.

(** *** Duration of one flight *)

(** [parseFloat(v as any) || 0]. *)
Definition numeric (v : JS.opt JS.number) : JS.number :=
  JS.or_number (JS.parseFloat v) 0%float.

(** The three loops (aircraft, pilot, route) repeat these lines verbatim. *)
Definition tachDiffOf (flight : Flight.t) : JS.number :=
  let tachStart := numeric (Flight.tachStart flight) in
  let tachEnd := numeric (Flight.tachEnd flight) in
  if JS.gt tachEnd tachStart then (tachEnd - tachStart)%float else 0%float.

Definition hoursOf (flight : Flight.t) : JS.number :=
  let hobbsTime := numeric (Flight.hobbsTime flight) in
  JS.or_number hobbsTime (tachDiffOf flight).

(** *** Grouping by aircraft *)



Module AircraftStat.
Record t : Type := mk {
  id : string;
  tailNumber : string;
  make : string;
  model : string;
  flightCount : nat;
  totalHours : JS.number;
  totalTach : JS.number;
  averageFlightTime : JS.number;
  averageTachTime : JS.number
}.
End AircraftStat.

(** [count > 0 ? total / count : 0]. *)
Definition average (total : JS.number) (count : nat) : JS.number :=
  if (0 <? count)%nat then (total / JS.of_nat count)%float else 0%float.


(** *** Grouping by pilot *)

Module PilotStat.
Record t : Type := mk {
  name : string;
  flights : nat;
  hours : JS.number;
  averageTime : JS.number
}.
End PilotStat.



(** *** Grouping by route *)

Module RouteStat.
Record t : Type := mk {
  name : string;
  flights : nat;
  hours : JS.number;
  tach : JS.number;
  averageTime : JS.number;
  averageTach : JS.number
}.
End RouteStat.

(** The key a flight is grouped under. *)
Definition routeOf (flight : Flight.t) : string :=
  JS.str_or (Flight.route flight) "Local".

Definition byRoute (filteredFlights : list Flight.t)
    : JS.object (nat * JS.number * JS.number) :=
  fold_left
    (fun byRoute flight =>
       let route := routeOf flight in
       let tachDiff := tachDiffOf flight in
       let hours := hoursOf flight in
       JS.upsert byRoute route (0%nat, 0%float, 0%float)
         (fun '(count, total, tach) =>
            ((count + 1)%nat, (total + hours)%float, (tach + tachDiff)%float)))
    filteredFlights [].

Definition routeStats (filteredFlights : list Flight.t) : list RouteStat.t :=
  JS.sort
    (fun a b => (JS.of_nat (RouteStat.flights b) - JS.of_nat (RouteStat.flights a))%float)
    (map
       (fun '(route, (count, hours, tach)) =>
          let averageTime := average hours count in
          let averageTach := average tach count in
          {| RouteStat.name := route;
             RouteStat.flights := count;
             RouteStat.hours := JS.round_to 1 hours;
             RouteStat.tach := JS.round_to 1 tach;
             RouteStat.averageTime := JS.round_to 1 averageTime;
             RouteStat.averageTach := JS.round_to 1 averageTach |})
       (JS.entries (byRoute filteredFlights))).

End FlightSummaryOverview.

(** ** The fuel analysis view *)

Module FuelAnalysisContent.

(** [typeof v === 'number' ? v : 0], then [hobbsTime || (tachEnd - tachStart)]. *)
Definition hoursFlown (flight : Flight.t) : JS.number :=
  let hobbsTime := JS.number_or (Flight.hobbsTime flight) 0%float in
  let tachStart := JS.number_or (Flight.tachStart flight) 0%float in
  let tachEnd := JS.number_or (Flight.tachEnd flight) 0%float in
  JS.or_number hobbsTime (tachEnd - tachStart)%float.

Module Stat.
Record t : Type := mk {
  aircraftId : string;
  tailNumber : string;
  totalHours : JS.number;
  totalFuel : JS.number;
  fuelPerHour : JS.number
}.
End Stat.

Definition byAircraft (aircraft : list Aircraft.t) (flights : list Flight.t)
    : JS.object Stat.t :=
  fold_left
    (fun byAircraft flight =>
       let fuelAdded := JS.number_or (Flight.fuelAdded flight) 0%float in
       let hours := hoursFlown flight in
       let key := JS.ToPropertyKey (Flight.aircraftId flight) in
       let foundAircraft :=
         find (fun a => match Flight.aircraftId flight with
                        | JS.val i => Aircraft.id a =? i
                        | _ => false
                        end) aircraft in
       JS.upsert byAircraft key
         {| Stat.aircraftId := key;
            Stat.tailNumber :=
              match foundAircraft with
              | Some a => JS.str_or (Aircraft.tailNumber a) "Unknown"
              | None => "Unknown"
              end;
            Stat.totalHours := 0%float;
            Stat.totalFuel := 0%float;
            Stat.fuelPerHour := 0%float |}
         (fun stats =>
            {| Stat.aircraftId := Stat.aircraftId stats;
               Stat.tailNumber := Stat.tailNumber stats;
               Stat.totalHours := (Stat.totalHours stats + hours)%float;
               Stat.totalFuel := (Stat.totalFuel stats + fuelAdded)%float;
               Stat.fuelPerHour := Stat.fuelPerHour stats |}))
    flights [].

Definition fuelAnalysisByAircraft (aircraft : list Aircraft.t) (flights : list Flight.t)
    : list Stat.t :=
  let withRate :=
    map (fun stats =>
           {| Stat.aircraftId := Stat.aircraftId stats;
              Stat.tailNumber := Stat.tailNumber stats;
              Stat.totalHours := Stat.totalHours stats;
              Stat.totalFuel := Stat.totalFuel stats;
              Stat.fuelPerHour :=
                if JS.gt (Stat.totalHours stats) 0%float
                then JS.round_to 2 (Stat.totalFuel stats / Stat.totalHours stats)%float
                else 0%float |})
        (JS.values (byAircraft aircraft flights)) in
  JS.sort (fun a b => (Stat.totalHours b - Stat.totalHours a)%float)
    (filter (fun stats => JS.gt (Stat.totalHours stats) 0%float
                          && JS.gt (Stat.totalFuel stats) 0%float)
            withRate).

(** [overallStats]: the totals over every flight. *)
Definition overallStats (flights : list Flight.t) : JS.number * JS.number * JS.number :=
  let '(totalHours, totalFuel) :=
    fold_left
      (fun '(totalHours, totalFuel) flight =>
         ((totalHours + hoursFlown flight)%float,
          (totalFuel + JS.number_or (Flight.fuelAdded flight) 0%float)%float))
      flights (0%float, 0%float) in
  let averageGPH :=
    if JS.gt totalHours 0%float
    then JS.round_to 2 (totalFuel / totalHours)%float else 0%float in
  (totalHours, totalFuel, averageGPH).

End FuelAnalysisContent.

(** ** RouteAnalyticsContent.tsx *)

Module RouteAnalyticsContent.

Inductive direction : Type := asc | desc.

(** The columns the table can be sorted by. *)
Module Field.
Inductive t : Type :=
| route | flightCount | averageTime | targetTime | difference | percentDiff.
End Field.

(** The filter and sort state of the component. *)
Record selection : Type := mkSelection {
  selectedMonth : string;
  selectedYear : string;
  selectedAircraft : string;
  selectedPilot : string
}.

(** A row of [chartData]; [None] is [null]. *)
Module Row.
Record t : Type := mk {
  route : string;
  flightCount : nat;
  averageTime : JS.number;
  targetTime : option JS.number;
  difference : option JS.number;
  percentDiff : option JS.number
}.
End Row.

(** The value [row[sortField]]. *)
Inductive cell : Type :=
| Text (s : string)
| Num (x : JS.number)
| Null.

Definition nullable (v : option JS.number) : cell :=
  match v with Some x => Num x | None => Null end.

Definition cellOf (sortField : Field.t) (row : Row.t) : cell :=
  match sortField with
  | Field.route => Text (Row.route row)
  | Field.flightCount => Num (JS.of_nat (Row.flightCount row))
  | Field.averageTime => Num (Row.averageTime row)
  | Field.targetTime => nullable (Row.targetTime row)
  | Field.difference => nullable (Row.difference row)
  | Field.percentDiff => nullable (Row.percentDiff row)
  end.

(** The row has [null] in the sort column. *)
Definition isNull (sortField : Field.t) (row : Row.t) : bool :=
  match cellOf sortField row with Null => true | _ => false end.

(** Once a row with [null] is met, only such rows follow. *)
Fixpoint nullsLast (sortField : Field.t) (rows : list Row.t) : Prop :=
  match rows with
  | [] => True
  | a :: rest =>
      (isNull sortField a = true -> Forall (fun b => isNull sortField b = true) rest)
      /\ nullsLast sortField rest
  end.

(** The key a flight is grouped under. *)
Definition routeOf (flight : Flight.t) : string :=
  JS.str_or (Flight.route flight) "Unknown".

Definition flightsByRoute (filteredFlights : list Flight.t) : JS.object (list Flight.t) :=
  fold_left
    (fun acc flight => JS.upsert acc (routeOf flight) [] (fun group => group ++ [flight]))
    filteredFlights [].

(** The predicate handed to [targetTimes.find]. *)
Definition targetMatches (sel : selection) (route : string) (t : RouteTargetTime.t) : bool :=
  (RouteTargetTime.route t =? route)
  && ((selectedAircraft sel =? "all-aircraft")
      || JS.str_eq (RouteTargetTime.aircraftId t) (selectedAircraft sel)
      || negb (JS.truthy_str (RouteTargetTime.aircraftId t)))
  && ((selectedPilot sel =? "all-pilots")
      || JS.str_eq (RouteTargetTime.pilotId t) (selectedPilot sel)
      || negb (JS.truthy_str (RouteTargetTime.pilotId t)))
  && ((selectedMonth sel =? "all-months")
      || JS.num_eq (RouteTargetTime.month t) (JS.parseInt (selectedMonth sel))
      || negb (JS.truthy_num (RouteTargetTime.month t)))
  && ((selectedYear sel =? "all-years")
      || JS.num_eq (RouteTargetTime.year t) (JS.parseInt (selectedYear sel))
      || negb (JS.truthy_num (RouteTargetTime.year t))).

(** [targetTimes.find(...)?.targetTime || null]. *)
Definition targetTimeFor (targetTimes : list RouteTargetTime.t) (sel : selection)
    (route : string) : option JS.number :=
  match find (targetMatches sel route) targetTimes with
  | Some t =>
      match RouteTargetTime.targetTime t with
      | JS.val x => if JS.truthy_number x then Some x else None
      | _ => None
      end
  | None => None
  end.

(** The callback mapped over [Object.entries(flightsByRoute)]. *)
Definition routeStat (targetTimes : list RouteTargetTime.t) (sel : selection)
    (entry : string * list Flight.t) : Row.t :=
  let '(route, routeFlights) := entry in
  let flightCount := List.length routeFlights in
  let totalTime :=
    fold_left (fun sum f => JS.add_opt sum (Flight.hobbsTime f)) routeFlights 0%float in
  let averageTime :=
    if (0 <? flightCount)%nat then (totalTime / JS.of_nat flightCount)%float else 0%float in
  let targetTime := targetTimeFor targetTimes sel route in
  let difference :=
    match targetTime with
    | Some target => Some (averageTime - target)%float
    | None => None
    end in
  let percentDiff :=
    match targetTime with
    | Some target => Some ((averageTime / target - 1) * 100)%float
    | None => None
    end in
  {| Row.route := route;
     Row.flightCount := flightCount;
     Row.averageTime := averageTime;
     Row.targetTime := targetTime;
     Row.difference := difference;
     Row.percentDiff := percentDiff |}.

(** [toggleSort(field)] on the sort state. *)
Definition sameField (a b : Field.t) : bool :=
  match a, b with
  | Field.route, Field.route
  | Field.flightCount, Field.flightCount
  | Field.averageTime, Field.averageTime
  | Field.targetTime, Field.targetTime
  | Field.difference, Field.difference
  | Field.percentDiff, Field.percentDiff => true
  | _, _ => false
  end.

Definition toggleSort (field : Field.t) (state : Field.t * direction) : Field.t * direction :=
  let '(sortField, sortDirection) := state in
  if sameField sortField field
  then (sortField, match sortDirection with asc => desc | desc => asc end)
  else (field, asc).

(** The selection [resetFilters] leaves. *)
Definition resetFilters : selection :=
  {| selectedMonth := "all-months";
     selectedYear := "all-years";
     selectedAircraft := "all-aircraft";
     selectedPilot := "all-pilots" |}.

Section Runtime.

(** [new Date(s)] read in the viewer's time zone, and the collation of
    [localeCompare], are the engine's. *)
Variable newDate : string -> option Date.t.
Variable localeCompare : string -> string -> JS.number.

Definition flightPasses (sel : selection) (flight : Flight.t) : bool :=
  let flightDate := newDate (Flight.date flight) in
  let flightMonth := (Date.getMonth flightDate + 1)%float in
  let flightYear := Date.getFullYear flightDate in
  let monthMatch :=
    (selectedMonth sel =? "all-months")
    || (flightMonth =? JS.parseInt (selectedMonth sel))%float in
  let yearMatch :=
    (selectedYear sel =? "all-years")
    || (flightYear =? JS.parseInt (selectedYear sel))%float in
  let aircraftMatch :=
    (selectedAircraft sel =? "all-aircraft")
    || JS.str_eq (Flight.aircraftId flight) (selectedAircraft sel) in
  let pilotMatch :=
    (selectedPilot sel =? "all-pilots")
    || JS.str_eq (Flight.pilotId flight) (selectedPilot sel) in
  monthMatch && yearMatch && aircraftMatch && pilotMatch.

(** The comparator of the final sort, on the two values it reads.  Both
    come from the same column, so a text never meets a number. *)
Definition compareCells (sortDirection : direction) (aValue bValue : cell) : JS.number :=
  match aValue, bValue with
  | Null, Null => 0%float
  | Null, _ => 1%float
  | _, Null => (-1)%float
  | Text a, Text b =>
      match sortDirection with
      | asc => localeCompare a b
      | desc => localeCompare b a
      end
  | _, _ =>
      let number v := match v with Num x => x | _ => nan end in
      match sortDirection with
      | asc => (number aValue - number bValue)%float
      | desc => (number bValue - number aValue)%float
      end
  end.

Definition compareRows (sortField : Field.t) (sortDirection : direction)
    (a b : Row.t) : JS.number :=
  compareCells sortDirection (cellOf sortField a) (cellOf sortField b).

(** [uniqueYears]: the years of the flights, each once, latest first. *)
Definition uniqueYears (flights : list Flight.t) : list JS.number :=
  let years := map (fun f => Date.getFullYear (newDate (Flight.date f))) flights in
  JS.sort (fun a b => (b - a)%float)
    (JS.filter_from
       (fun value index =>
          match JS.indexOf years value with
          | Some i => (i =? index)%nat
          | None => false
          end)
       0 years).

Definition chartData (flights : list Flight.t) (targetTimes : list RouteTargetTime.t)
    (sel : selection) (sortField : Field.t) (sortDirection : direction) : list Row.t :=
  let filteredFlights := filter (flightPasses sel) flights in
  let routeStats :=
    map (routeStat targetTimes sel) (JS.entries (flightsByRoute filteredFlights)) in
  JS.sort (compareRows sortField sortDirection) routeStats.

End Runtime.

End RouteAnalyticsContent.

(** ** PassengerSummaryContent.tsx *)

Module PassengerSummaryContent.

Definition relevantFlights (flights : list Flight.t) : list Flight.t :=
  filter (fun flight => JS.str_eq (Flight.category flight) "SF"
                        || JS.str_eq (Flight.category flight) "135")
         flights.

(** [reduce((sum, flight) => sum + (flight.passengerCount || 0), 0)]. *)
Definition passengersOf (flights : list Flight.t) : JS.number :=
  fold_left (fun sum flight => (sum + JS.num_or (Flight.passengerCount flight) 0)%float)
            flights 0%float.

Module Bucket.
Record t : Type := mk {
  name : string;
  passengers : JS.number;
  flights : nat;
  average : JS.number
}.
End Bucket.

(** The key a flight is grouped under. *)
Definition routeOf (flight : Flight.t) : string :=
  JS.str_or (Flight.route flight) "Local".

Definition byRoute (flights : list Flight.t) : JS.object (JS.number * nat) :=
  fold_left
    (fun byRoute flight =>
       JS.upsert byRoute (routeOf flight) (0%float, 0%nat)
         (fun '(count, n) =>
            ((count + JS.num_or (Flight.passengerCount flight) 0)%float, (n + 1)%nat)))
    flights [].


(** [totalPassengers] and [averagePassengersPerFlight]. *)
Definition totalPassengers (flights : list Flight.t) : JS.number :=
  passengersOf (relevantFlights flights).

Definition averagePassengersPerFlight (flights : list Flight.t) : JS.number :=
  match relevantFlights flights with
  | [] => 0%float
  | relevant =>
      JS.round_to 1 (totalPassengers flights / JS.of_nat (List.length relevant))%float
  end.

Module AircraftBucket.
Record t : Type := mk {
  id : string;
  name : string;
  makeModel : string;
  passengers : JS.number;
  flights : nat;
  average : JS.number
}.
End AircraftBucket.

Definition byAircraft (flights : list Flight.t) : JS.object (JS.number * nat) :=
  fold_left
    (fun byAircraft flight =>
       JS.upsert byAircraft (JS.ToPropertyKey (Flight.aircraftId flight)) (0%float, 0%nat)
         (fun '(count, n) =>
            ((count + JS.num_or (Flight.passengerCount flight) 0)%float, (n + 1)%nat)))
    flights [].


Section Runtime.

Variable newDate : string -> option Date.t.



End Runtime.

End PassengerSummaryContent.

(** ** FlightForm.tsx *)

Module FlightForm.

(** Modelled from the spec: [ensureNumber] of [@/utils/numberUtils], which
    is the numeric normalizer: the numeric value, or [0] if the value is
    absent, non-numeric or [NaN]. *)
Definition ensureNumber (v : JS.opt JS.number) : JS.number :=
  match v with
  | JS.val x => if PrimFloat.is_nan x then 0%float else x
  | _ => 0%float
  end.

(** The three numeric fields of the form values. *)
Record values : Type := mkValues {
  tachStart : JS.opt JS.number;
  tachEnd : JS.opt JS.number;
  hobbsTime : JS.opt JS.number
}.

Definition defaultValues : values :=
  {| tachStart := JS.val 0%float; tachEnd := JS.val 0%float; hobbsTime := JS.val 0%float |}.

(** The body of the effect that watches [tachStart] and [tachEnd]. *)
Definition calculateHobbs (v : values) : values :=
  match tachStart v, tachEnd v with
  | JS.undefined, _ | _, JS.undefined => v
  | _, _ =>
      let start := ensureNumber (tachStart v) in
      let endValue := ensureNumber (tachEnd v) in
      let tachDiff := JS.Math_max 0%float (endValue - start)%float in
      let hobbsTime := (tachDiff * 1.2)%float in
      {| tachStart := tachStart v; tachEnd := tachEnd v; hobbsTime := JS.val hobbsTime |}
  end.

(** [Object.is] on the watched values, which decides whether an effect
    runs again. *)
Definition same (a b : JS.opt JS.number) : bool :=
  match a, b with
  | JS.undefined, JS.undefined => true
  | JS.null, JS.null => true
  | JS.val x, JS.val y => PrimFloat.Leibniz.eqb x y
  | _, _ => false
  end.

(** The form between two events: its values, and the dependencies the
    effect last ran with ([None] before the first render). *)
Record state : Type := mkState {
  current : values;
  deps : option (JS.opt JS.number * JS.opt JS.number)
}.

(** The watched values are the ones the effect last ran with. *)
Definition inSync (s : state) : bool :=
  match deps s with
  | Some (a, b) => same a (tachStart (current s)) && same b (tachEnd (current s))
  | None => false
  end.

(** After a render the effect runs iff a dependency changed. *)
Definition commit (s : state) : state :=
  if inSync s then s
  else {| current := calculateHobbs (current s);
          deps := Some (tachStart (current s), tachEnd (current s)) |}.

Definition mount : state := commit {| current := defaultValues; deps := None |}.

(** What happens to the form: the pilot types in a tach field (the inputs
    are registered with [valueAsNumber]; the hobbs time is displayed, not
    entered), or the flight being edited arrives and [reset] loads it. *)
Inductive event : Type :=
| ChangeTachStart (x : JS.number)
| ChangeTachEnd (x : JS.number)
| Reset (flight : Flight.t).

Definition handle (v : values) (e : event) : values :=
  match e with
  | ChangeTachStart x =>
      {| tachStart := JS.val x; tachEnd := tachEnd v; hobbsTime := hobbsTime v |}
  | ChangeTachEnd x =>
      {| tachStart := tachStart v; tachEnd := JS.val x; hobbsTime := hobbsTime v |}
  | Reset flight =>
      {| tachStart := JS.val (JS.num_or (Flight.tachStart flight) 0%float);
         tachEnd := JS.val (JS.num_or (Flight.tachEnd flight) 0%float);
         hobbsTime := JS.val (JS.num_or (Flight.hobbsTime flight) 0%float) |}
  end.

Definition step (s : state) (e : event) : state :=
  commit {| current := handle (current s) e; deps := deps s |}.

Definition run (es : list event) : state := fold_left step es mount.

(** [z.number().min(0)]: a number that is not [NaN] and is at least 0. *)
Definition validNumber (v : JS.opt JS.number) : bool :=
  match v with
  | JS.val x => negb (PrimFloat.is_nan x) && (0 <=? x)%float
  | _ => false
  end.

(** The values [handleSubmit] passes to [onSubmit], when the numeric
    fields pass the schema. *)
Definition submitted (s : state) : option values :=
  let v := current s in
  if validNumber (tachStart v) && validNumber (tachEnd v) && validNumber (hobbsTime v)
  then Some v else None.

(** The hobbs time the effect derives from the tach fields. *)
Definition derivedHobbs (v : values) : JS.number :=
  (JS.Math_max 0%float (ensureNumber (tachEnd v) - ensureNumber (tachStart v)) * 1.2)%float.

Definition defined (v : JS.opt JS.number) : bool :=
  match v with JS.undefined => false | _ => true end.

Definition isReset (e : event) : bool :=
  match e with Reset _ => true | _ => false end.

(** What holds of the form between two events when no flight was loaded
    into it: the effect has run on the tach readings it shows. *)
Definition settled (s : state) : Prop :=
  inSync s = true
  /\ defined (tachStart (current s)) = true
  /\ defined (tachEnd (current s)) = true
  /\ hobbsTime (current s) = JS.val (derivedHobbs (current s)).

End FlightForm.

(** ** The flight logbook list *)

Module FlightList.

(** What the awaited service call came back with. *)
Inductive outcome (A : Type) : Type :=
| Succeeded (result : A)
| Failed
| Threw.
Arguments Succeeded {A} _.
Arguments Failed {A}.
Arguments Threw {A}.

Record state : Type := mkState {
  flights : list Flight.t;
  loading : bool;
  error : bool;
  deleteDialogOpen : bool;
  flightToDelete : option string;
  deleteLoading : bool
}.

Definition initial : state :=
  {| flights := []; loading := true; error := false;
     deleteDialogOpen := false; flightToDelete := None; deleteLoading := false |}.

(** [fetchFlights], once [getAllFlights] has settled: the flights are
    replaced only by a successful answer that carries them. *)
Definition fetchFlights (answer : outcome (option (list Flight.t))) (s : state) : state :=
  {| flights := match answer with
                | Succeeded (Some fetchedFlights) => fetchedFlights
                | _ => flights s
                end;
     loading := false;
     error := match answer with
              | Succeeded (Some _) => false
              | _ => true
              end;
     deleteDialogOpen := deleteDialogOpen s;
     flightToDelete := flightToDelete s;
     deleteLoading := deleteLoading s |}.

Definition handleDeleteClick (id : string) (s : state) : state :=
  {| flights := flights s; loading := loading s; error := error s;
     deleteDialogOpen := true; flightToDelete := Some id;
     deleteLoading := deleteLoading s |}.

(** [confirmDelete], once [deleteFlight] has settled. *)
Definition confirmDelete (answer : outcome unit) (s : state) : state :=
  match flightToDelete s with
  | None => s
  | Some id =>
      if id =? "" then s
      else
        {| flights := match answer with
                      | Succeeded _ =>
                          filter (fun flight => negb (Flight.id flight =? id)) (flights s)
                      | _ => flights s
                      end;
           loading := loading s; error := error s;
           deleteDialogOpen := false; flightToDelete := None;
           deleteLoading := false |}
  end.

Inductive event : Type :=
| Fetched (answer : outcome (option (list Flight.t)))
| DeleteClicked (id : string)
| DeleteConfirmed (answer : outcome unit).

Definition step (s : state) (e : event) : state :=
  match e with
  | Fetched answer => fetchFlights answer s
  | DeleteClicked id => handleDeleteClick id s
  | DeleteConfirmed answer => confirmDelete answer s
  end.

(** The flights a successful answer to [getAllFlights] carried. *)
Definition fetchedBy (e : event) : list Flight.t :=
  match e with
  | Fetched (Succeeded (Some fetchedFlights)) => fetchedFlights
  | _ => []
  end.

End FlightList.

(** ** SafetyList.tsx *)

Module SafetyReport.
Record t : Type := mk {
  id : string;
  description : JS.opt string;
  category : JS.opt string;
  reporterName : JS.opt string;
  status : JS.opt string
}.
End SafetyReport.

Module SafetyList.

(** A report that has one of the four fields the search reads. *)
Definition hasText (report : SafetyReport.t) : bool :=
  let present (field : JS.opt string) :=
    match field with JS.val _ => true | _ => false end in
  present (SafetyReport.description report)
  || present (SafetyReport.category report)
  || present (SafetyReport.reporterName report)
  || present (SafetyReport.status report).

Section Runtime.

(** [toLowerCase] follows the engine's Unicode tables. *)
Variable toLowerCase : string -> string.

(** [field?.toLowerCase().includes(searchTerm.toLowerCase())], where a
    missing field gives [undefined], which is falsy. *)
Definition fieldMatches (field : JS.opt string) (searchTerm : string) : bool :=
  match field with
  | JS.val text => JS.includes (toLowerCase text) (toLowerCase searchTerm)
  | _ => false
  end.

Definition filteredReports (reports : list SafetyReport.t) (searchTerm : string)
    : list SafetyReport.t :=
  filter
    (fun report =>
       fieldMatches (SafetyReport.description report) searchTerm
       || fieldMatches (SafetyReport.category report) searchTerm
       || fieldMatches (SafetyReport.reporterName report) searchTerm
       || fieldMatches (SafetyReport.status report) searchTerm)
    reports.

End Runtime.

End SafetyList.

(** ** Sample records *)

Module Sample.

(** A flight with the given identity, aircraft, route, tach readings and
    hobbs time, and nothing else filled in. *)
Definition flight (id : string) (aircraftId route : JS.opt string)
    (tachStart tachEnd hobbsTime : JS.opt JS.number) : Flight.t :=
  {| Flight.id := id;
     Flight.aircraftId := aircraftId;
     Flight.pilotId := JS.undefined;
     Flight.date := "2024-03-15";
     Flight.tachStart := tachStart;
     Flight.tachEnd := tachEnd;
     Flight.hobbsTime := hobbsTime;
     Flight.fuelAdded := JS.undefined;
     Flight.oilAdded := JS.undefined;
     Flight.passengerCount := JS.undefined;
     Flight.route := route;
     Flight.squawks := JS.undefined;
     Flight.notes := JS.undefined;
     Flight.createdAt := JS.undefined;
     Flight.updatedAt := JS.undefined;
     Flight.category := JS.undefined;
     Flight.departureTime := JS.undefined;
     Flight.pilotName := JS.undefined |}.

Definition row (id : string) (hobbsTime : JS.opt JS.number) : FlightRow.t :=
  {| FlightRow.id := id;
     FlightRow.aircraft_id := JS.val "X";
     FlightRow.pilot_id := JS.null;
     FlightRow.date := "2024-03-15";
     FlightRow.tach_start := JS.null;
     FlightRow.tach_end := JS.null;
     FlightRow.hobbs_time := hobbsTime;
     FlightRow.fuel_added := JS.null;
     FlightRow.oil_added := JS.null;
     FlightRow.passenger_count := JS.null;
     FlightRow.route := JS.null;
     FlightRow.squawks := JS.null;
     FlightRow.notes := JS.null;
     FlightRow.created_at := JS.null;
     FlightRow.updated_at := JS.null;
     FlightRow.category := JS.null;
     FlightRow.departure_time := JS.null;
     FlightRow.pilot_name := JS.null |}.

(** The tach meter reads less at the end than at the start, and the form
    has stored the hobbs time it derives from that: 0. *)
Definition tachRegression : Flight.t :=
  flight "f1" (JS.val "X") (JS.val "ABC")
         (JS.val 12%float) (JS.val 10%float) (JS.val 0%float).

(** A flight whose route was left empty. *)
Definition noRoute : Flight.t :=
  flight "f2" (JS.val "X") JS.undefined
         (JS.val 10%float) (JS.val 12%float) (JS.val 2.4%float).


Definition everything : RouteAnalyticsContent.selection :=
  {| RouteAnalyticsContent.selectedMonth := "all-months";
     RouteAnalyticsContent.selectedYear := "all-years";
     RouteAnalyticsContent.selectedAircraft := "all-aircraft";
     RouteAnalyticsContent.selectedPilot := "all-pilots" |}.

Definition target (route : string) (targetTime : JS.number) : RouteTargetTime.t :=
  {| RouteTargetTime.id := "t1";
     RouteTargetTime.route := route;
     RouteTargetTime.targetTime := JS.val targetTime;
     RouteTargetTime.aircraftId := JS.null;
     RouteTargetTime.pilotId := JS.null;
     RouteTargetTime.month := JS.null;
     RouteTargetTime.year := JS.null |}.

(** One flight on route ABC that took 1.8 hours. *)
Definition flightABC : Flight.t :=
  flight "d" (JS.val "X") (JS.val "ABC") JS.undefined JS.undefined (JS.val 1.8%float).

(** The statistics of route ABC from that flight, against one target for
    the route with the given time. *)
Definition routeABC (targetTime : JS.number) : RouteAnalyticsContent.Row.t :=
  RouteAnalyticsContent.routeStat [target "ABC" targetTime] everything
    ("ABC", [flightABC]).

(** A reading of the date the sample flights carry, at local midnight. *)
Definition newDate (s : string) : option Date.t :=
  match s with
  | "2024-03-15" => Some (Date.mk 2024 2 15 0)
  | _ => None
  end.

Definition localeCompare (a b : string) : JS.number :=
  match String.compare a b with Lt => (-1)%float | Eq => 0%float | Gt => 1%float end.


End Sample.

(** * Properties *)

(** ** Numbers *)

Section NumberFacts.

Local Open Scope float_scope.

Lemma SFcompare_Lt_asym (x y : spec_float) :
  SFcompare x y = Some Lt -> SFcompare y x = Some Gt.
Proof.
  destruct x as [sx|sx| |sx mx ex], y as [sy|sy| |sy my ey]; simpl;
    try discriminate; try (destruct sx; discriminate);
    try (destruct sy; discriminate);
    try (destruct sx, sy; intros; try discriminate; reflexivity);
    try (destruct sx; intros; try discriminate; reflexivity);
    try (destruct sy; intros; try discriminate; reflexivity).
  assert (C : forall a b, PosDef.Pos.compare_cont Eq a b = (a ?= b)%positive)
    by reflexivity.
  rewrite (C mx my), (C my mx), (Z.compare_antisym ex ey), (Pos.compare_antisym mx my).
  destruct sx, sy; try discriminate; try reflexivity;
    destruct (ex ?= ey)%Z; simpl; try discriminate; try reflexivity;
    destruct (mx ?= my)%positive; simpl; try discriminate; reflexivity.
Qed.

(** [a < b] excludes [b < a]. *)
Lemma ltb_asym (a b : float) : (a <? b) = true -> (b <? a) = false.
Proof.
  rewrite !FloatAxioms.ltb_spec. unfold SFltb. intros H.
  destruct (SFcompare (Prim2SF a) (Prim2SF b)) as [[ | | ]|] eqn:E; try discriminate.
  now rewrite (SFcompare_Lt_asym _ _ E).
Qed.

(** A positive number is neither a zero nor [NaN]. *)
Lemma positive_truthy (x : float) : (0 <? x) = true -> JS.truthy_number x = true.
Proof.
  unfold JS.truthy_number, PrimFloat.is_zero, PrimFloat.is_nan.
  rewrite FloatAxioms.ltb_spec, !FloatAxioms.eqb_spec. unfold SFltb, SFeqb.
  change (Prim2SF 0) with (S754_zero false). change (Prim2SF zero) with (S754_zero false).
  destruct (Prim2SF x) as [s|s| |s m e]; simpl; try discriminate.
  - destruct s; [discriminate|reflexivity].
  - destruct s; [discriminate|]. intros _.
    rewrite Z.compare_refl.
    change (PosDef.Pos.compare_cont Eq m m) with (m ?= m)%positive.
    now rewrite Pos.compare_refl.
Qed.

Lemma Leibniz_eqb_refl (x : float) : PrimFloat.Leibniz.eqb x x = true.
Proof. now apply FloatAxioms.Leibniz.eqb_spec. Qed.

End NumberFacts.

(** ** Objects and arrays *)

Section ContainerFacts.

Context {V : Type}.

Lemma insert_index_perm (n : Z) (p : string * V) l :
  Permutation (JS.insert_index n p l) ((n, p) :: l).
Proof.
  induction l as [|[m q] l IH]; simpl; [reflexivity|].
  destruct (n <? m)%Z; [reflexivity|].
  rewrite IH. apply perm_swap.
Qed.

Lemma index_properties_perm (o : JS.object V) :
  Permutation (map snd (JS.index_properties o))
              (filter (fun p => JS.is_array_index (fst p)) o).
Proof.
  induction o as [|[k v] o IH]; simpl; [reflexivity|].
  unfold JS.is_array_index at 1. simpl.
  destruct (JS.array_index k) as [n|]; [|exact IH].
  rewrite insert_index_perm. simpl. now constructor.
Qed.

Lemma filter_partition_perm {A} (f : A -> bool) (l : list A) :
  Permutation (filter f l ++ filter (fun x => negb (f x)) l) l.
Proof.
  induction l as [|x l IH]; simpl; [reflexivity|].
  destruct (f x); simpl.
  - now constructor.
  - rewrite <- Permutation_middle. now constructor.
Qed.

(** [Object.entries] lists every own property once. *)
Lemma entries_perm (o : JS.object V) : Permutation (JS.entries o) o.
Proof.
  unfold JS.entries. rewrite index_properties_perm.
  apply (filter_partition_perm (fun p => JS.is_array_index (fst p))).
Qed.


End ContainerFacts.

Lemma sort_insert_perm {A} (cmp : A -> A -> JS.number) x l :
  Permutation (JS.sort_insert cmp x l) (x :: l).
Proof.
  induction l as [|y l IH]; simpl; [reflexivity|].
  destruct (JS.gt (cmp x y) 0%float); [|reflexivity].
  rewrite IH. apply perm_swap.
Qed.

(** Sorting rearranges the array and nothing more. *)
Lemma sort_perm {A} (cmp : A -> A -> JS.number) (l : list A) :
  Permutation (JS.sort cmp l) l.
Proof.
  induction l as [|x l IH]; simpl; [reflexivity|].
  rewrite sort_insert_perm. now constructor.
Qed.


(** ** Duration of a flight *)

Section Duration.

Local Open Scope float_scope.

Lemma numeric_falsy (v : JS.opt JS.number) :
  JS.truthy_num v = false -> FlightSummaryOverview.numeric v = 0.
Proof.
  unfold FlightSummaryOverview.numeric, JS.or_number.
  destruct v as [| |x]; simpl; try reflexivity.
  intros H. destruct (PrimFloat.is_zero x) eqn:Z; [reflexivity|].
  now rewrite H.
Qed.

(** In the flight summary a tach regression counts for nothing: with no
    hobbs time and an end reading below the start reading the duration is
    0, in the aircraft, pilot and route totals alike. *)
Lemma hoursOf_tach_regression (flight : Flight.t) :
  JS.truthy_num (Flight.hobbsTime flight) = false ->
  JS.lt (FlightSummaryOverview.numeric (Flight.tachEnd flight))
        (FlightSummaryOverview.numeric (Flight.tachStart flight)) = true ->
  FlightSummaryOverview.hoursOf flight = 0
  /\ FlightSummaryOverview.tachDiffOf flight = 0.
Proof.
  intros Hh Hlt.
  assert (T : FlightSummaryOverview.tachDiffOf flight = 0).
  { unfold FlightSummaryOverview.tachDiffOf, JS.gt.
    unfold JS.lt in Hlt. now rewrite (ltb_asym _ _ Hlt). }
  split; [|exact T].
  unfold FlightSummaryOverview.hoursOf.
  rewrite (numeric_falsy _ Hh), T. reflexivity.
Qed.

(** The fuel analysis has no such clamp: without a hobbs time it counts the
    difference of the two readings, whatever its sign. *)
Lemma hoursFlown_without_hobbs (flight : Flight.t) :
  JS.truthy_num (Flight.hobbsTime flight) = false ->
  FuelAnalysisContent.hoursFlown flight
  = JS.number_or (Flight.tachEnd flight) 0 - JS.number_or (Flight.tachStart flight) 0.
Proof.
  unfold FuelAnalysisContent.hoursFlown, JS.or_number.
  destruct (Flight.hobbsTime flight) as [| |h]; simpl; try reflexivity.
  now intros ->.
Qed.

(** C1: the resolved duration is never negative, in every view that
    computes one.  The fuel analysis breaks it: for a flight with hobbs
    time 0, tach start 12 and tach end 10 the flight summary counts 0
    hours, while the fuel analysis counts -2 hours, per flight and in the
    overall total. *)
Theorem C1_fuel_analysis_negative_duration :
  FlightSummaryOverview.hoursOf Sample.tachRegression = 0
  /\ FuelAnalysisContent.hoursFlown Sample.tachRegression = -2
  /\ JS.lt (FuelAnalysisContent.hoursFlown Sample.tachRegression) 0 = true
  /\ FuelAnalysisContent.overallStats [Sample.tachRegression] = (-2, 0, 0).
Proof. repeat split; reflexivity. Qed.

(** C2: when hobbsTime is a non-zero number the resolved duration is
    hobbsTime itself, whatever the tach readings are: in the flight
    summary (aircraft, pilot and route totals), in the fuel analysis, and
    in the total time of a route of the route analytics, which adds
    hobbsTime as it is. *)
Theorem C2_hobbs_time_is_the_duration (flight : Flight.t) (h : JS.number) :
  Flight.hobbsTime flight = JS.val h ->
  JS.truthy_number h = true ->
  FlightSummaryOverview.hoursOf flight = h
  /\ FuelAnalysisContent.hoursFlown flight = h
  /\ (forall sum, JS.add_opt sum (Flight.hobbsTime flight) = sum + h).
Proof.
  intros Hh Ht.
  unfold FlightSummaryOverview.hoursOf, FuelAnalysisContent.hoursFlown,
    FlightSummaryOverview.numeric.
  rewrite Hh. simpl.
  assert (Z : PrimFloat.is_zero h = false).
  { unfold JS.truthy_number in Ht. destruct (PrimFloat.is_zero h); [discriminate|reflexivity]. }
  rewrite Z. unfold JS.or_number. rewrite !Ht. repeat split.
Qed.

Lemma C2_witness :
  FlightSummaryOverview.hoursOf Sample.noRoute = 2.4
  /\ FuelAnalysisContent.hoursFlown Sample.noRoute = 2.4
  /\ (forall sum, JS.add_opt sum (Flight.hobbsTime Sample.noRoute) = sum + 2.4).
Proof.
  apply (C2_hobbs_time_is_the_duration Sample.noRoute 2.4); reflexivity.
Defined.

End Duration.

(** ** Group keys *)

(** C5: a flight without a route is grouped under "Local" in every view that
    groups by route.  The flight summary and the passenger summary do so;
    the route analytics groups it under "Unknown". *)
Theorem C5_route_analytics_groups_under_unknown :
  Flight.route Sample.noRoute = JS.undefined
  /\ FlightSummaryOverview.routeOf Sample.noRoute = "Local"
  /\ PassengerSummaryContent.routeOf Sample.noRoute = "Local"
  /\ RouteAnalyticsContent.routeOf Sample.noRoute = "Unknown"
  /\ RouteAnalyticsContent.flightsByRoute [Sample.noRoute] = [("Unknown", [Sample.noRoute])]
  /\ map fst (FlightSummaryOverview.byRoute [Sample.noRoute]) = ["Local"]
  /\ map fst (PassengerSummaryContent.byRoute [Sample.noRoute]) = ["Local"].
Proof. repeat split; reflexivity. Qed.

(** Whatever the flight, the three views use these labels. *)
Lemma route_fallback_labels (flight : Flight.t) :
  JS.truthy_str (Flight.route flight) = false ->
  FlightSummaryOverview.routeOf flight = "Local"
  /\ PassengerSummaryContent.routeOf flight = "Local"
  /\ RouteAnalyticsContent.routeOf flight = "Unknown".
Proof.
  unfold FlightSummaryOverview.routeOf, PassengerSummaryContent.routeOf,
    RouteAnalyticsContent.routeOf, JS.str_or, JS.truthy_str.
  destruct (Flight.route flight) as [| |s]; auto.
  destruct (s =? ""); [auto|discriminate].
Qed.

(** ** Grouping is a partition *)

Section Partition.






End Partition.

(** ** The realtime handlers *)

Section Realtime.

Import FlightSummaryOverview.

Lemma onDelete_removes (row : FlightRow.t) (flights : list Flight.t) (f : Flight.t) :
  In f (onDelete row flights) -> Flight.id f <> FlightRow.id row.
Proof.
  unfold onDelete. rewrite filter_In. intros [_ H] E.
  rewrite E, String.eqb_refl in H. discriminate.
Qed.

(** C8: an Insert of a record whose identity is already in the collection
    leaves the collection as it is; a Delete of an identity that is not
    there leaves it as it is; after Insert(A), Update(A'), Delete(A) the
    collection holds no record with the identity of A. *)
Theorem C8_realtime_adapter (flights : list Flight.t) (a a' : FlightRow.t) :
  ((exists f, In f flights /\ Flight.id f = FlightRow.id a) ->
   apply flights (Insert a) = flights)
  /\ ((forall f, In f flights -> Flight.id f <> FlightRow.id a) ->
      apply flights (Delete a) = flights)
  /\ (forall f, In f (applyAll flights [Insert a; Update a'; Delete a]) ->
                Flight.id f <> FlightRow.id a).
Proof.
  repeat split.
  - intros [f [Hin Hid]]. simpl. unfold onInsert.
    replace (existsb _ flights) with true; [reflexivity|].
    symmetry. apply existsb_exists. exists f. split; [exact Hin|].
    now apply String.eqb_eq.
  - intros H. simpl. unfold onDelete.
    induction flights as [|f l IH]; simpl; [reflexivity|].
    destruct (String.eqb_spec (Flight.id f) (FlightRow.id a)) as [E|_]; simpl.
    + exfalso. apply (H f); [now left|exact E].
    + f_equal. apply IH. intros g Hg. apply H. now right.
  - simpl. intros f. apply onDelete_removes.
Qed.

Lemma C8_witness :
  let stored := [flightOfRow (Sample.row "a" (JS.val 2%float))] in
  (apply stored (Insert (Sample.row "a" (JS.val 3%float))) = stored)
  /\ (apply stored (Delete (Sample.row "b" JS.null)) = stored)
  /\ applyAll stored [Insert (Sample.row "b" JS.null);
                      Update (Sample.row "b" (JS.val 1%float));
                      Delete (Sample.row "b" JS.null)] = stored.
Proof.
  intros stored.
  destruct (C8_realtime_adapter stored (Sample.row "a" (JS.val 3%float))
              (Sample.row "a" JS.null)) as [Hinsert _].
  destruct (C8_realtime_adapter stored (Sample.row "b" JS.null)
              (Sample.row "b" (JS.val 1%float))) as [_ [Hdelete _]].
  split; [|split].
  - apply Hinsert. exists (flightOfRow (Sample.row "a" (JS.val 2%float))).
    split; [now left|reflexivity].
  - apply Hdelete. intros f [<-|[]]. discriminate.
  - reflexivity.
Defined.

End Realtime.

(** ** Target reconciliation *)

Section Reconciliation.

Import RouteAnalyticsContent.
Local Open Scope float_scope.

Variable newDate : string -> option Date.t.
Variable localeCompare : string -> string -> JS.number.

Lemma routeStat_route targetTimes sel r fs :
  Row.route (routeStat targetTimes sel (r, fs)) = r.
Proof. reflexivity. Qed.

(** Every row of the table is the statistics of one route group. *)
Lemma chartData_row flights targetTimes sel sortField sortDirection row :
  In row (chartData newDate localeCompare flights targetTimes sel sortField sortDirection) ->
  exists fs, row = routeStat targetTimes sel (Row.route row, fs).
Proof.
  unfold chartData. intros H.
  apply (Permutation_in _ (sort_perm _ _)) in H.
  apply in_map_iff in H. destruct H as [[r fs] [<- _]].
  exists fs. reflexivity.
Qed.

Lemma targetTimeFor_unmatched targetTimes sel r :
  (forall t, In t targetTimes -> targetMatches sel r t = false) ->
  targetTimeFor targetTimes sel r = None.
Proof.
  intros H. unfold targetTimeFor.
  destruct (find (targetMatches sel r) targetTimes) as [t|] eqn:F; [|reflexivity].
  apply find_some in F. destruct F as [Hin Hm].
  rewrite (H t Hin) in Hm. discriminate.
Qed.

(** The target's time is used only when it is neither a zero nor [NaN]. *)
Lemma targetTimeFor_truthy targetTimes sel r x :
  targetTimeFor targetTimes sel r = Some x -> JS.truthy_number x = true.
Proof.
  unfold targetTimeFor.
  destruct (find (targetMatches sel r) targetTimes) as [t|]; [|discriminate].
  destruct (RouteTargetTime.targetTime t) as [| |y]; try discriminate.
  destruct (JS.truthy_number y) eqn:T; [|discriminate].
  intros E. injection E as <-. exact T.
Qed.

(** C3: a route that no target matches under the current selection has
    targetTime, difference and percentDiff null; so has a route whose only
    matching target has a target time of exactly 0.  A target time that is
    used is never a zero, so no division by zero takes place. *)
Theorem C3_unmatched_route_has_null_target
    flights targetTimes sel sortField sortDirection row :
  In row (chartData newDate localeCompare flights targetTimes sel sortField sortDirection) ->
  ((forall t, In t targetTimes -> targetMatches sel (Row.route row) t = false)
   \/ (exists t x,
         In t targetTimes
         /\ targetMatches sel (Row.route row) t = true
         /\ (forall t', In t' targetTimes ->
                        targetMatches sel (Row.route row) t' = true -> t' = t)
         /\ RouteTargetTime.targetTime t = JS.val x
         /\ PrimFloat.is_zero x = true) ->
   Row.targetTime row = None /\ Row.difference row = None /\ Row.percentDiff row = None)
  /\ (forall x, Row.targetTime row = Some x -> JS.truthy_number x = true).
Proof.
  intros Hrow. destruct (chartData_row _ _ _ _ _ _ Hrow) as [fs E].
  set (r := Row.route row) in *. clearbody r. subst row. clear Hrow.
  split.
  - intros H.
    assert (N : targetTimeFor targetTimes sel r = None).
    { destruct H as [H|[t [x [Hin [Hm [Huniq [Ht Hz]]]]]]].
      - now apply targetTimeFor_unmatched.
      - unfold targetTimeFor.
        destruct (find (targetMatches sel r) targetTimes) as [t'|] eqn:F; [|reflexivity].
        apply find_some in F. destruct F as [Hin' Hm'].
        rewrite (Huniq t' Hin' Hm'), Ht.
        unfold JS.truthy_number. now rewrite Hz. }
    unfold routeStat. simpl. rewrite N. auto.
  - unfold routeStat. simpl. apply targetTimeFor_truthy.
Qed.

(** C4, as the code has it: for a route whose matching target (the first
    one in the collection that matches) has a positive target time,
    difference = averageTime - targetTime and
    percentDiff = (averageTime / targetTime - 1) * 100, computed on
    binary64 numbers.  For target time 1.5 and average 1.8 this gives
    0.30000000000000004 and 19.999999999999996, which are 0.3 and 20.0
    when rounded to one decimal. *)
Theorem C4_difference_and_percent
    flights targetTimes sel sortField sortDirection row t x :
  In row (chartData newDate localeCompare flights targetTimes sel sortField sortDirection) ->
  find (targetMatches sel (Row.route row)) targetTimes = Some t ->
  RouteTargetTime.targetTime t = JS.val x ->
  JS.gt x 0 = true ->
  (Row.targetTime row = Some x
   /\ Row.difference row = Some (Row.averageTime row - x)
   /\ Row.percentDiff row = Some ((Row.averageTime row / x - 1) * 100))
  /\ (Row.averageTime (Sample.routeABC 1.5%float) = 1.8
      /\ Row.difference (Sample.routeABC 1.5%float) = Some 0.30000000000000004
      /\ Row.percentDiff (Sample.routeABC 1.5%float) = Some 19.999999999999996
      /\ JS.round_to 1 0.30000000000000004 = 0.3
      /\ JS.round_to 1 19.999999999999996 = 20).
Proof.
  intros Hrow Hfind Ht Hpos. split; [|repeat split; reflexivity].
  destruct (chartData_row _ _ _ _ _ _ Hrow) as [fs E].
  set (r := Row.route row) in *. clearbody r. subst row. clear Hrow.
  assert (T : targetTimeFor targetTimes sel r = Some x).
  { unfold targetTimeFor. rewrite Hfind, Ht.
    now rewrite (positive_truthy x Hpos). }
  unfold routeStat. simpl. rewrite T. auto.
Qed.

End Reconciliation.

(** Two binary64 numbers that differ. *)
Ltac numbers_differ :=
  let H := fresh in
  intro H;
  apply (f_equal (fun v => match v with Some x => Prim2SF x | None => S754_nan end)) in H;
  vm_compute in H; discriminate.

(** For target time 1.5 and average 1.8 the program does not compute the
    numbers 0.3 and 20. *)
Lemma C4_scenario_is_not_exact :
  RouteAnalyticsContent.Row.averageTime (Sample.routeABC 1.5%float) = 1.8%float
  /\ RouteAnalyticsContent.Row.targetTime (Sample.routeABC 1.5%float) = Some 1.5%float
  /\ RouteAnalyticsContent.Row.difference (Sample.routeABC 1.5%float) <> Some 0.3%float
  /\ RouteAnalyticsContent.Row.percentDiff (Sample.routeABC 1.5%float) <> Some 20%float.
Proof.
  split; [reflexivity|]. split; [reflexivity|].
  split; vm_compute; numbers_differ.
Qed.

Lemma C3_witness :
  RouteAnalyticsContent.Row.targetTime (Sample.routeABC 0%float) = None
  /\ RouteAnalyticsContent.Row.difference (Sample.routeABC 0%float) = None
  /\ RouteAnalyticsContent.Row.percentDiff (Sample.routeABC 0%float) = None.
Proof.
  apply (C3_unmatched_route_has_null_target Sample.newDate Sample.localeCompare
           [Sample.flightABC] [Sample.target "ABC" 0%float] Sample.everything
           RouteAnalyticsContent.Field.route RouteAnalyticsContent.asc (Sample.routeABC 0%float)).
  - left. reflexivity.
  - right. exists (Sample.target "ABC" 0%float), 0%float.
    split; [now left|]. split; [reflexivity|].
    split; [|split; reflexivity].
    intros t' [<-|[]] _. reflexivity.
Defined.

Lemma C4_witness :
  RouteAnalyticsContent.Row.targetTime (Sample.routeABC 1.5%float) = Some 1.5%float
  /\ RouteAnalyticsContent.Row.difference (Sample.routeABC 1.5%float)
     = Some (RouteAnalyticsContent.Row.averageTime (Sample.routeABC 1.5%float) - 1.5)%float
  /\ RouteAnalyticsContent.Row.percentDiff (Sample.routeABC 1.5%float)
     = Some ((RouteAnalyticsContent.Row.averageTime (Sample.routeABC 1.5%float) / 1.5 - 1) * 100)%float.
Proof.
  apply (C4_difference_and_percent Sample.newDate Sample.localeCompare
           [Sample.flightABC] [Sample.target "ABC" 1.5%float] Sample.everything
           RouteAnalyticsContent.Field.route RouteAnalyticsContent.asc (Sample.routeABC 1.5%float)
           (Sample.target "ABC" 1.5%float) 1.5%float).
  - left. reflexivity.
  - reflexivity.
  - reflexivity.
  - reflexivity.
Defined.

(** ** Sorting the route table *)

Section Sorting.

Import RouteAnalyticsContent.
Local Open Scope float_scope.

Variable newDate : string -> option Date.t.
Variable localeCompare : string -> string -> JS.number.
Variable sortField : Field.t.
Variable sortDirection : direction.

Let cmp := compareRows localeCompare sortField sortDirection.

Lemma compare_null_first a b :
  isNull sortField a = true -> isNull sortField b = false -> cmp a b = 1.
Proof.
  unfold isNull, cmp, compareRows.
  destruct (cellOf sortField a); try discriminate.
  destruct (cellOf sortField b); try discriminate; reflexivity.
Qed.

Lemma compare_null_second a b :
  isNull sortField a = false -> isNull sortField b = true -> cmp a b = -1.
Proof.
  unfold isNull, cmp, compareRows.
  destruct (cellOf sortField b); try discriminate.
  destruct (cellOf sortField a); try discriminate; reflexivity.
Qed.

Lemma compare_null_both a b :
  isNull sortField a = true -> isNull sortField b = true -> cmp a b = 0.
Proof.
  unfold isNull, cmp, compareRows.
  destruct (cellOf sortField a); try discriminate.
  destruct (cellOf sortField b); try discriminate; reflexivity.
Qed.

Lemma sort_insert_nullsLast x rows :
  nullsLast sortField rows -> nullsLast sortField (JS.sort_insert cmp x rows).
Proof.
  induction rows as [|y rows IH]; simpl.
  - intros _. split; [constructor|exact I].
  - intros [Hy Hrest].
    destruct (bool_dec (isNull sortField x) true) as [Nx|Nx], (bool_dec (isNull sortField y) true) as [Ny|Ny];
      try apply not_true_is_false in Nx; try apply not_true_is_false in Ny.
    + rewrite (compare_null_both _ _ Nx Ny). simpl.
      split; [intros _; constructor; auto|]. split; assumption.
    + rewrite (compare_null_first _ _ Nx Ny). simpl.
      split; [congruence|]. now apply IH.
    + rewrite (compare_null_second _ _ Nx Ny). simpl.
      split; [congruence|]. split; assumption.
    + destruct (JS.gt (cmp x y) 0); simpl.
      * split; [congruence|]. now apply IH.
      * split; [congruence|]. split; assumption.
Qed.

Lemma sort_nullsLast rows : nullsLast sortField (JS.sort cmp rows).
Proof.
  induction rows as [|x rows IH]; simpl; [exact I|].
  now apply sort_insert_nullsLast.
Qed.

Lemma nullsLast_split rows before a after :
  nullsLast sortField rows -> rows = before ++ a :: after ->
  isNull sortField a = true -> Forall (fun b => isNull sortField b = true) after.
Proof.
  revert rows. induction before as [|x before IH]; intros rows H E Na; subst rows.
  - simpl in H. now apply H.
  - simpl in H. apply (IH _ (proj2 H) eq_refl Na).
Qed.

(** C9: whatever the sort field and the direction, the comparator puts a
    row whose value is null after a row whose value is not, and holds two
    rows with null values equal; in the sorted table every row that
    follows a row with a null value has a null value too. *)
Theorem C9_null_values_sort_last flights targetTimes sel :
  (forall a b, cellOf sortField a = Null -> cellOf sortField b <> Null ->
               compareRows localeCompare sortField sortDirection a b = 1
               /\ compareRows localeCompare sortField sortDirection b a = -1)
  /\ (forall a b, cellOf sortField a = Null -> cellOf sortField b = Null ->
                  compareRows localeCompare sortField sortDirection a b = 0)
  /\ (forall before a after,
        chartData newDate localeCompare flights targetTimes sel sortField sortDirection
        = before ++ a :: after ->
        cellOf sortField a = Null ->
        forall b, In b after -> cellOf sortField b = Null).
Proof.
  assert (N : forall r, cellOf sortField r = Null <-> isNull sortField r = true).
  { intros r. unfold isNull. destruct (cellOf sortField r); split; congruence. }
  split; [|split].
  - intros a b Ha Hb. apply N in Ha.
    assert (Nb : isNull sortField b = false).
    { destruct (isNull sortField b) eqn:E; [|reflexivity]. apply N in E. contradiction. }
    split; [now apply compare_null_first|now apply compare_null_second].
  - intros a b Ha Hb. apply N in Ha. apply N in Hb. now apply compare_null_both.
  - intros before a after E Ha b Hb. apply N. apply N in Ha.
    unfold chartData in E.
    pose proof (nullsLast_split _ _ _ _ (sort_nullsLast _) E Ha) as F.
    rewrite Forall_forall in F. now apply F.
Qed.

End Sorting.

Lemma C9_witness :
  RouteAnalyticsContent.compareRows Sample.localeCompare
    RouteAnalyticsContent.Field.percentDiff RouteAnalyticsContent.desc
    (Sample.routeABC 0%float) (Sample.routeABC 1.5%float) = 1%float
  /\ RouteAnalyticsContent.compareRows Sample.localeCompare
       RouteAnalyticsContent.Field.percentDiff RouteAnalyticsContent.desc
       (Sample.routeABC 1.5%float) (Sample.routeABC 0%float) = (-1)%float.
Proof.
  apply (C9_null_values_sort_last Sample.newDate Sample.localeCompare
           RouteAnalyticsContent.Field.percentDiff RouteAnalyticsContent.desc
           [] [] Sample.everything).
  - reflexivity.
  - discriminate.
Defined.

(** ** The monthly trend *)

Section MonthlyTrend.

Import PassengerSummaryContent.
Local Open Scope Z_scope.

Lemma monthIndex_firstOfMonth (j : Z) : Date.monthIndex (Date.firstOfMonth j) = j.
Proof.
  unfold Date.monthIndex, Date.firstOfMonth. cbn [Date.year Date.month].
  pose proof (Z.div_mod j 12 ltac:(lia)). lia.
Qed.

Lemma nextMonth_firstOfMonth (j : Z) :
  DateFns.nextMonth (Date.firstOfMonth j) = Date.firstOfMonth (j + 1).
Proof.
  unfold DateFns.nextMonth. rewrite monthIndex_firstOfMonth. reflexivity.
Qed.

Lemma valid_fields (d : Date.t) :
  Date.valid d = true ->
  0 <= Date.month d <= 11 /\ 1 <= Date.day d /\ 0 <= Date.time d.
Proof.
  unfold Date.valid. rewrite !andb_true_iff, !Z.leb_le, Z.ltb_lt. lia.
Qed.

(** The first instant of a month is not after [d] iff the month is not
    after the month of [d]. *)
Lemma leb_firstOfMonth (j : Z) (d : Date.t) :
  Date.valid d = true ->
  Date.leb (Date.firstOfMonth j) d = (j <=? Date.monthIndex d).
Proof.
  intros V. apply valid_fields in V.
  unfold Date.leb, Date.compare, Date.monthIndex, Date.firstOfMonth.
  cbn [Date.year Date.month Date.day Date.time].
  pose proof (Z.div_mod j 12 ltac:(lia)). pose proof (Z.mod_pos_bound j 12 ltac:(lia)).
  destruct (Z.compare_spec (j / 12) (Date.year d));
    [destruct (Z.compare_spec (j mod 12) (Date.month d));
     [destruct (Z.compare_spec 1 (Date.day d));
      [destruct (Z.compare_spec 0 (Date.time d))|..]|..]|..];
    symmetry; first [apply Z.leb_le; lia | apply Z.leb_gt; lia].
Qed.

Lemma eachMonthLoop_months (endDate : Date.t) (n fuel : nat) (j : Z) :
  Date.valid endDate = true ->
  (n < fuel)%nat ->
  j + Z.of_nat n = Date.monthIndex endDate + 1 ->
  DateFns.eachMonthLoop fuel (Date.firstOfMonth j) endDate
  = map (fun k => Date.firstOfMonth (j + Z.of_nat k)) (seq 0 n).
Proof.
  intros V. revert fuel j.
  induction n as [|n IH]; intros fuel j Hfuel Hj;
    (destruct fuel as [|fuel]; [lia|]); simpl;
    rewrite (leb_firstOfMonth _ _ V).
  - replace (j <=? Date.monthIndex endDate) with false; [reflexivity|].
    symmetry. apply Z.leb_gt. lia.
  - replace (j <=? Date.monthIndex endDate) with true
      by (symmetry; apply Z.leb_le; lia).
    rewrite Z.add_0_r. f_equal.
    rewrite nextMonth_firstOfMonth, (IH fuel (j + 1)) by lia.
    rewrite <- seq_shift, map_map.
    apply map_ext. intros k. f_equal. lia.
Qed.

(** More fuel than one turn per month of the interval and one more does
    not change what the loop returns: it ends by its own test. *)
Lemma eachMonthLoop_fuel (endDate : Date.t) (j : Z) (fuel : nat) :
  Date.valid endDate = true ->
  j <= Date.monthIndex endDate + 1 ->
  (Z.to_nat (Date.monthIndex endDate - j + 1) < fuel)%nat ->
  DateFns.eachMonthLoop fuel (Date.firstOfMonth j) endDate
  = DateFns.eachMonthLoop (S (Z.to_nat (Date.monthIndex endDate - j + 1)))
      (Date.firstOfMonth j) endDate.
Proof.
  intros V Hj Hfuel.
  rewrite (eachMonthLoop_months endDate (Z.to_nat (Date.monthIndex endDate - j + 1)) fuel j V)
    by lia.
  now rewrite (eachMonthLoop_months endDate (Z.to_nat (Date.monthIndex endDate - j + 1)) _ j V)
    by lia.
Qed.


Variable newDate : string -> option Date.t.



End MonthlyTrend.


(** ** The flight entry form *)

Section Form.

Import FlightForm.

Lemma same_eq (a b : JS.opt JS.number) : same a b = true -> a = b.
Proof.
  destruct a as [| |x], b as [| |y]; simpl; try discriminate; try reflexivity.
  intros H. apply FloatAxioms.Leibniz.eqb_spec in H. now subst.
Qed.

Lemma same_refl (a : JS.opt JS.number) : same a a = true.
Proof. destruct a; simpl; try reflexivity. apply Leibniz_eqb_refl. Qed.

Lemma calculateHobbs_defined (v : values) :
  defined (tachStart v) = true -> defined (tachEnd v) = true ->
  calculateHobbs v
  = {| tachStart := tachStart v; tachEnd := tachEnd v;
       hobbsTime := JS.val (derivedHobbs v) |}.
Proof.
  unfold calculateHobbs, derivedHobbs.
  destruct (tachStart v), (tachEnd v); simpl; try discriminate; reflexivity.
Qed.

Lemma mount_settled : settled mount.
Proof. repeat split. Qed.

Lemma step_settled (s : state) (e : event) :
  settled s -> isReset e = false -> settled (step s e).
Proof.
  intros [Sync [Ds [De Hh]]] He. unfold step, commit.
  set (v := handle (current s) e).
  assert (Dv : defined (tachStart v) = true /\ defined (tachEnd v) = true).
  { destruct e; simpl in *; auto; discriminate. }
  destruct Dv as [Dvs Dve].
  destruct (inSync {| current := v; deps := deps s |}) eqn:U.
  - (* the typed value is the one the field held *)
    assert (E : v = current s).
    { unfold inSync in U, Sync. simpl in U.
      destruct (deps s) as [[a b]|]; [|discriminate].
      apply andb_true_iff in U. destruct U as [Ua Ub].
      apply andb_true_iff in Sync. destruct Sync as [Sa Sb].
      apply same_eq in Ua, Ub, Sa, Sb. subst a b.
      destruct (current s) as [ts te h]. subst v.
      destruct e; simpl in *; try discriminate; congruence. }
    split; [exact U|]. simpl. rewrite E. auto.
  - cbn [current deps]. rewrite (calculateHobbs_defined v Dvs Dve).
    split; [|simpl; auto].
    unfold inSync. simpl. now rewrite !same_refl.
Qed.

Lemma run_settled (es : list event) :
  Forall (fun e => isReset e = false) es -> settled (run es).
Proof.
  unfold run. generalize mount_settled. generalize mount as s.
  induction es as [|e es IH]; intros s Hs H; simpl; [exact Hs|].
  inversion H; subst. apply IH; [|assumption]. now apply step_settled.
Qed.



End Form.



(** * Further properties *)

(** ** Signs of differences and products *)

Section Signs.

Local Open Scope Z_scope.

Lemma digits2_pos_bounds (m : positive) :
  2 ^ (Z.pos (digits2_pos m) - 1) <= Z.pos m < 2 ^ Z.pos (digits2_pos m).
Proof.
  induction m as [m IH|m IH|]; simpl digits2_pos.
  - rewrite Pos2Z.inj_succ.
    replace (Z.succ (Z.pos (digits2_pos m)) - 1) with (Z.succ (Z.pos (digits2_pos m) - 1)) by lia.
    rewrite !Z.pow_succ_r by lia. lia.
  - rewrite Pos2Z.inj_succ.
    replace (Z.succ (Z.pos (digits2_pos m)) - 1) with (Z.succ (Z.pos (digits2_pos m) - 1)) by lia.
    rewrite !Z.pow_succ_r by lia. lia.
  - simpl. lia.
Qed.

Lemma iter_xO (m d : positive) : Z.pos (Pos.iter xO m d) = Z.pos m * 2 ^ Z.pos d.
Proof.
  revert m. induction d as [|d IH] using Pos.peano_ind; intros m.
  - simpl. lia.
  - rewrite Pos.iter_succ, Pos2Z.inj_succ, Z.pow_succ_r by lia.
    rewrite Pos2Z.inj_xO, IH. lia.
Qed.

(** The mantissa aligned on a smaller exponent. *)
Lemma shl_align_value (m : positive) (e e' : Z) :
  e' <= e -> Z.pos (fst (shl_align m e e')) = Z.pos m * 2 ^ (e - e').
Proof.
  intros H. unfold shl_align.
  destruct (e' - e) as [|d|d] eqn:E; cbn [fst].
  - replace (e - e') with 0 by lia. rewrite Z.pow_0_r. lia.
  - lia.
  - replace (e - e') with (Z.pos d) by lia. apply iter_xO.
Qed.

(** Of two canonical mantissas the one with the larger exponent is the
    larger number. *)
Lemma canonical_exponent_order (mx my : positive) (ex ey : Z) :
  bounded prec emax mx ex = true -> bounded prec emax my ey = true ->
  ex < ey -> Z.pos mx < Z.pos my * 2 ^ (ey - ex).
Proof.
  unfold bounded, canonical_mantissa, fexp, emin.
  rewrite !andb_true_iff, !Z.eqb_eq. intros [Cx _] [Cy _] H.
  pose proof (digits2_pos_bounds mx) as [_ Bx].
  pose proof (digits2_pos_bounds my) as [By _].
  change prec with 53 in *. change emax with 1024 in *.
  assert (Dy : Z.pos (digits2_pos my) = 53) by lia.
  assert (Dx : Z.pos (digits2_pos mx) <= 53) by lia.
  rewrite Dy in By.
  assert (Z.pos mx < 2 ^ 53).
  { eapply Z.lt_le_trans; [exact Bx|]. apply Z.pow_le_mono_r; lia. }
  assert (2 ^ 1 <= 2 ^ (ey - ex)) by (apply Z.pow_le_mono_r; lia).
  change (2 ^ (53 - 1)) with 4503599627370496 in By.
  change (2 ^ 53) with 9007199254740992 in *.
  change (2 ^ 1) with 2 in *. nia.
Qed.

Lemma shr_1_nonneg (mrs : shr_record) : 0 <= shr_m mrs -> 0 <= shr_m (shr_1 mrs).
Proof.
  destruct mrs as [m r s]. simpl.
  destruct m as [|[p|p|]|[p|p|]]; simpl; lia.
Qed.

Lemma iter_pos_invariant {A} (P : A -> Prop) (f : A -> A) (p : positive) (x : A) :
  (forall y, P y -> P (f y)) -> P x -> P (iter_pos f p x).
Proof.
  intros Hf. revert x. induction p as [p IH|p IH|]; intros x Hx; simpl; auto.
Qed.

Lemma shr_fexp_nonneg (m e : Z) (l : location) :
  0 <= m -> 0 <= shr_m (fst (shr_fexp prec emax m e l)).
Proof.
  intros H. unfold shr_fexp, shr.
  assert (I : 0 <= shr_m (shr_record_of_loc m l)) by (destruct l as [|[ | | ]]; exact H).
  destruct (fexp prec emax (Zdigits2 m + e) - e); cbn [fst]; try exact I.
  apply (iter_pos_invariant (fun mrs => 0 <= shr_m mrs)); [apply shr_1_nonneg|exact I].
Qed.

(** Rounding keeps the sign it is given, and gives a number. *)
Lemma binary_round_aux_sign (sx : bool) (mx ex : Z) (lx : location) :
  0 <= mx ->
  match binary_round_aux prec emax sx mx ex lx with
  | S754_zero s | S754_infinity s | S754_finite s _ _ => s = sx
  | S754_nan => False
  end.
Proof.
  intros H. unfold binary_round_aux.
  pose proof (shr_fexp_nonneg mx ex lx H) as H1.
  destruct (shr_fexp prec emax mx ex lx) as [mrs' e']. cbn [fst] in H1.
  assert (H2 : 0 <= round_nearest_even (shr_m mrs') (loc_of_shr_record mrs')).
  { unfold round_nearest_even.
    destruct (loc_of_shr_record mrs') as [|[ | | ]]; try lia.
    destruct (Z.even (shr_m mrs')); lia. }
  pose proof (shr_fexp_nonneg _ e' loc_Exact H2) as H3.
  destruct (shr_fexp prec emax _ e' loc_Exact) as [mrs'' e'']. cbn [fst] in H3.
  destruct (shr_m mrs'') as [|m|m]; [reflexivity| |lia].
  destruct (e'' <=? emax - prec); reflexivity.
Qed.

Lemma binary_normalize_sign (m e : Z) :
  match binary_normalize prec emax m e false with
  | S754_zero _ => True
  | S754_infinity s | S754_finite s _ _ => s = (m <? 0)
  | S754_nan => False
  end.
Proof.
  destruct m as [|p|p]; simpl; [exact I| |];
    unfold binary_round;
    destruct (shl_align p e _) as [mz ez];
    match goal with
    | |- context [binary_round_aux _ _ ?s ?mm ?ee ?ll] =>
        pose proof (binary_round_aux_sign s mm ee ll ltac:(lia)) as B;
        destruct (binary_round_aux prec emax s mm ee ll); auto
    end.
Qed.

(** When [y < x], [x - y] is a number that is not negative and [y - x] a
    number that is not positive. *)
Lemma SFsub_ordered (x y : spec_float) :
  valid_binary x = true -> valid_binary y = true ->
  SFcompare y x = Some Lt ->
  JS.SFnotNegative (SFsub prec emax x y) /\ JS.SFnotPositive (SFsub prec emax y x).
Proof.
  intros Vx Vy C.
  destruct x as [sx|sx| |sx mx ex], y as [sy|sy| |sy my ey]; simpl in C;
    try discriminate;
    try (destruct sx, sy; simpl in *; try discriminate; split; reflexivity || exact I);
    try (destruct sx; simpl in *; try discriminate; split; reflexivity || exact I);
    try (destruct sy; simpl in *; try discriminate; split; reflexivity || exact I).
  simpl in Vx, Vy. unfold SFsub.
  pose proof (binary_normalize_sign
    (cond_Zopp sx (Z.pos (fst (shl_align mx ex (Z.min ex ey))))
     - cond_Zopp sy (Z.pos (fst (shl_align my ey (Z.min ex ey))))) (Z.min ex ey)) as Bx.
  pose proof (binary_normalize_sign
    (cond_Zopp sy (Z.pos (fst (shl_align my ey (Z.min ey ex))))
     - cond_Zopp sx (Z.pos (fst (shl_align mx ex (Z.min ey ex))))) (Z.min ey ex)) as By.
  rewrite (shl_align_value mx ex (Z.min ex ey)), (shl_align_value my ey (Z.min ex ey)) in Bx by lia.
  rewrite (shl_align_value mx ex (Z.min ey ex)), (shl_align_value my ey (Z.min ey ex)) in By by lia.
  rewrite (shl_align_value mx ex (Z.min ex ey)), (shl_align_value my ey (Z.min ex ey)) by lia.
  rewrite (shl_align_value mx ex (Z.min ey ex)), (shl_align_value my ey (Z.min ey ex)) by lia.
  assert (P : forall a b : Z, 0 <= a -> 0 < 2 ^ a) by (intros; apply Z.pow_pos_nonneg; lia).
  assert (D : cond_Zopp sy (Z.pos my * 2 ^ (ey - Z.min ex ey))
              < cond_Zopp sx (Z.pos mx * 2 ^ (ex - Z.min ex ey))).
  { assert (0 < Z.pos mx * 2 ^ (ex - Z.min ex ey))
      by (apply Z.mul_pos_pos; [lia|apply (P _ 0); lia]).
    assert (0 < Z.pos my * 2 ^ (ey - Z.min ex ey))
      by (apply Z.mul_pos_pos; [lia|apply (P _ 0); lia]).
    assert (Cm : forall a b, PosDef.Pos.compare_cont Eq a b = (a ?= b)%positive) by reflexivity.
    destruct sx, sy; unfold cond_Zopp; simpl in C; try discriminate; try lia;
      destruct (Z.compare_spec ey ex) as [E|E|E]; try discriminate.
    - subst. rewrite Cm in C.
      destruct (Pos.compare_spec my mx); try discriminate.
      rewrite Z.min_id, Z.sub_diag, Z.pow_0_r. lia.
    - pose proof (canonical_exponent_order _ _ _ _ Vx Vy E).
      rewrite Z.min_l, Z.sub_diag, Z.pow_0_r by lia. lia.
    - subst. rewrite Cm in C.
      destruct (Pos.compare_spec my mx); try discriminate.
      rewrite Z.min_id, Z.sub_diag, Z.pow_0_r. lia.
    - pose proof (canonical_exponent_order _ _ _ _ Vy Vx E).
      rewrite Z.min_r, Z.sub_diag, Z.pow_0_r by lia. lia. }
  rewrite (Z.min_comm ey ex) in *.
  set (dx := cond_Zopp sx (Z.pos mx * 2 ^ (ex - Z.min ex ey))) in *.
  set (dy := cond_Zopp sy (Z.pos my * 2 ^ (ey - Z.min ex ey))) in *.
  split.
  - destruct (binary_normalize prec emax (dx - dy) (Z.min ex ey) false);
      cbn [JS.SFnotNegative]; try exact I; try contradiction;
      (transitivity (dx - dy <? 0); [exact Bx|apply Z.ltb_ge; lia]).
  - destruct (binary_normalize prec emax (dy - dx) (Z.min ex ey) false);
      cbn [JS.SFnotPositive]; try exact I; try contradiction;
      (transitivity (dy - dx <? 0); [exact By|apply Z.ltb_lt; lia]).
Qed.

Local Open Scope float_scope.

(** When [b < a], [a - b] is neither negative nor [NaN], and [b - a]
    neither positive nor [NaN]. *)
Lemma sub_ordered (a b : float) :
  (b <? a) = true -> JS.notNegative (a - b) /\ JS.notPositive (b - a).
Proof.
  rewrite FloatAxioms.ltb_spec. unfold SFltb. intros H.
  unfold JS.notNegative, JS.notPositive. rewrite !FloatAxioms.sub_spec.
  apply SFsub_ordered; try apply FloatAxioms.Prim2SF_valid.
  destruct (SFcompare (Prim2SF b) (Prim2SF a)) as [[ | | ]|]; try discriminate.
  reflexivity.
Qed.

Lemma SFcompare_refl (x : spec_float) : x <> S754_nan -> SFcompare x x = Some Eq.
Proof.
  destruct x as [s|s| |s m e]; simpl; try congruence.
  - destruct s; reflexivity.
  - intros _. rewrite Z.compare_refl.
    change (PosDef.Pos.compare_cont Eq m m) with (m ?= m)%positive.
    rewrite Pos.compare_refl. destruct s; reflexivity.
Qed.

Lemma notNegative_facts (x : float) :
  JS.notNegative x -> (x <? 0) = false /\ PrimFloat.is_nan x = false.
Proof.
  unfold JS.notNegative, PrimFloat.is_nan.
  rewrite FloatAxioms.ltb_spec, FloatAxioms.eqb_spec. unfold SFltb, SFeqb.
  change (Prim2SF 0) with (S754_zero false).
  intros H. rewrite SFcompare_refl by (intros E; rewrite E in H; exact H).
  split; [|reflexivity].
  destruct (Prim2SF x) as [s|s| |s m e]; simpl in *; subst;
    try reflexivity; try contradiction.
Qed.

Lemma notPositive_facts (x : float) :
  JS.notPositive x -> (0 <? x) = false /\ PrimFloat.is_nan x = false.
Proof.
  unfold JS.notPositive, PrimFloat.is_nan.
  rewrite FloatAxioms.ltb_spec, FloatAxioms.eqb_spec. unfold SFltb, SFeqb.
  change (Prim2SF 0) with (S754_zero false).
  intros H. rewrite SFcompare_refl by (intros E; rewrite E in H; exact H).
  split; [|reflexivity].
  destruct (Prim2SF x) as [s|s| |s m e]; simpl in *; subst;
    try reflexivity; try contradiction.
Qed.

(** [Math.max(0, x)] is 0 for a number that is not positive. *)
Lemma Math_max_notPositive (x : float) : JS.notPositive x -> JS.Math_max 0 x = 0.
Proof.
  intros H. destruct (notPositive_facts x H) as [P N].
  unfold JS.Math_max. rewrite N, P. simpl.
  destruct (x <? 0); reflexivity.
Qed.


(** The product of a number that is not below 0 with 1.2 is not below 0. *)
Lemma mul_12_not_below_zero (x : float) : (x <? 0) = false -> (x * 1.2 <? 0) = false.
Proof.
  rewrite !FloatAxioms.ltb_spec, FloatAxioms.mul_spec. unfold SFltb.
  change (Prim2SF 0) with (S754_zero false).
  change (Prim2SF 1.2) with (S754_finite false 5404319552844595 (-52)).
  destruct (Prim2SF x) as [s|s| |s m e]; simpl; try reflexivity.
  - destruct s; [discriminate|reflexivity].
  - destruct s; [discriminate|]. intros _.
    match goal with
    | |- context [binary_round_aux _ _ ?s ?m ?e ?l] =>
        pose proof (binary_round_aux_sign s m e l ltac:(lia)) as B;
        destruct (binary_round_aux prec emax s m e l); simpl; auto; subst; reflexivity
    end.
Qed.

End Signs.

(** ** Keys and values of objects *)

Section ObjectFacts.

Context {V : Type}.

Lemma set_keys (o : JS.object V) (k : string) (v : V) :
  map fst (JS.set o k v)
  = if existsb (fun k' => k' =? k) (map fst o) then map fst o else map fst o ++ [k].
Proof.
  induction o as [|[k' v'] o IH]; simpl; [reflexivity|].
  destruct (k' =? k); simpl; [reflexivity|].
  rewrite IH. now destruct (existsb _ (map fst o)).
Qed.

Lemma existsb_key (keys : list string) (k : string) :
  existsb (fun k' => k' =? k) keys = true <-> In k keys.
Proof.
  rewrite existsb_exists. split.
  - intros [k' [H E]]. apply String.eqb_eq in E. now subst.
  - intros H. exists k. split; [exact H|apply String.eqb_refl].
Qed.

Lemma set_keys_In (o : JS.object V) (k : string) (v : V) (k' : string) :
  In k' (map fst (JS.set o k v)) <-> k' = k \/ In k' (map fst o).
Proof.
  rewrite set_keys.
  destruct (existsb _ (map fst o)) eqn:E.
  - apply existsb_key in E. split; [auto|]. intros [->|H]; assumption.
  - rewrite in_app_iff. simpl. intuition.
Qed.

Lemma set_keys_NoDup (o : JS.object V) (k : string) (v : V) :
  NoDup (map fst o) -> NoDup (map fst (JS.set o k v)).
Proof.
  intros H. rewrite set_keys.
  destruct (existsb _ (map fst o)) eqn:E; [exact H|].
  apply NoDup_app; [exact H|repeat constructor; intros []|].
  intros x Hx [<-|[]].
  apply existsb_key in Hx. congruence.
Qed.


End ObjectFacts.

(** What a loop keeps true of the state it threads. *)
Lemma fold_left_invariant {A S : Type} (I : S -> list A -> Prop) (step : S -> A -> S)
    (l : list A) (s0 : S) :
  I s0 [] ->
  (forall s done x, I s done -> I (step s x) (done ++ [x])) ->
  I (fold_left step l s0) l.
Proof.
  intros H0 Hstep.
  assert (G : forall done s, I s done -> I (fold_left step l s) (done ++ l)).
  { induction l as [|x l IH]; intros done s H; simpl.
    - now rewrite app_nil_r.
    - replace (done ++ x :: l) with ((done ++ [x]) ++ l) by (now rewrite <- app_assoc).
      apply IH, Hstep, H. }
  exact (G [] s0 H0).
Qed.

(** ** More on the realtime handlers *)

Section RealtimeInvariants.

Import FlightSummaryOverview.

Lemma flightOfRow_id (r : FlightRow.t) : Flight.id (flightOfRow r) = FlightRow.id r.
Proof. reflexivity. Qed.

Lemma onUpdate_ids (r : FlightRow.t) (flights : list Flight.t) :
  map Flight.id (onUpdate r flights) = map Flight.id flights.
Proof.
  unfold onUpdate. rewrite map_map. apply map_ext_in. intros f _.
  destruct (String.eqb_spec (Flight.id f) (FlightRow.id r)) as [E|_]; [|reflexivity].
  now rewrite flightOfRow_id.
Qed.

Lemma existsb_id (r : FlightRow.t) (flights : list Flight.t) :
  existsb (fun flight => Flight.id flight =? FlightRow.id r) flights = true
  <-> In (FlightRow.id r) (map Flight.id flights).
Proof.
  rewrite existsb_exists, in_map_iff. split.
  - intros [f [H E]]. apply String.eqb_eq in E. eauto.
  - intros [f [E H]]. exists f. split; [exact H|now apply String.eqb_eq].
Qed.

Lemma filter_ids_NoDup (p : Flight.t -> bool) (flights : list Flight.t) :
  NoDup (map Flight.id flights) -> NoDup (map Flight.id (filter p flights)).
Proof.
  induction flights as [|f l IH]; simpl; intros H; [constructor|].
  inversion H as [|? ? Hn Hl]; subst.
  destruct (p f); simpl; [|auto].
  constructor; [|auto].
  intros Hin. apply Hn. apply in_map_iff in Hin. destruct Hin as [g [E Hg]].
  apply filter_In in Hg. apply in_map_iff. exists g. tauto.
Qed.

Lemma apply_ids_NoDup (flights : list Flight.t) (e : event) :
  NoDup (map Flight.id flights) -> NoDup (map Flight.id (apply flights e)).
Proof.
  intros H. destruct e as [r|r|r]; simpl.
  - unfold onInsert.
    destruct (existsb _ flights) eqn:E; [exact H|].
    rewrite map_app. simpl.
    apply NoDup_app; [exact H|repeat constructor; intros []|].
    intros x Hx [<-|[]]. apply existsb_id in Hx. congruence.
  - now rewrite onUpdate_ids.
  - now apply filter_ids_NoDup.
Qed.

(** X1: the handlers keep identities unique.  A collection in which no two
    flights share an id (the rows of a table, for one) stays so under every
    sequence of Insert, Update and Delete notifications. *)
Theorem X1_realtime_keeps_ids_unique (flights : list Flight.t) (events : list event) :
  NoDup (map Flight.id flights) ->
  NoDup (map Flight.id (applyAll flights events)).
Proof.
  unfold applyAll. revert flights.
  induction events as [|e es IH]; intros flights H; simpl; [exact H|].
  apply IH, apply_ids_NoDup, H.
Qed.

(** X2: an Update puts the mapped row in the place of the flight with its
    id and touches nothing else: the ids and their order stay, every flight
    with another id stays, and every flight that carries the id afterwards
    is the mapped row.  An Update of an id that is not there changes
    nothing. *)
Theorem X2_update_replaces_in_place (flights : list Flight.t) (r : FlightRow.t) :
  map Flight.id (apply flights (Update r)) = map Flight.id flights
  /\ (forall f, In f (apply flights (Update r)) ->
                Flight.id f = FlightRow.id r -> f = flightOfRow r)
  /\ (forall f, Flight.id f <> FlightRow.id r ->
                (In f (apply flights (Update r)) <-> In f flights))
  /\ (~ In (FlightRow.id r) (map Flight.id flights) ->
      apply flights (Update r) = flights).
Proof.
  simpl. split; [apply onUpdate_ids|]. unfold onUpdate. split; [|split].
  - intros f Hin Hid. apply in_map_iff in Hin. destruct Hin as [g [E Hg]].
    destruct (String.eqb_spec (Flight.id g) (FlightRow.id r)) as [_|N]; [congruence|].
    subst g. contradiction.
  - intros f Hid. rewrite in_map_iff. split.
    + intros [g [E Hg]].
      destruct (String.eqb_spec (Flight.id g) (FlightRow.id r)) as [_|_].
      * subst f. now rewrite flightOfRow_id in Hid.
      * now subst g.
    + intros Hf. exists f. split; [|exact Hf].
      now destruct (String.eqb_spec (Flight.id f) (FlightRow.id r)).
  - intros H. rewrite <- (map_id flights) at 2. apply map_ext_in. intros f Hf.
    destruct (String.eqb_spec (Flight.id f) (FlightRow.id r)) as [E|_]; [|reflexivity].
    exfalso. apply H. rewrite <- E. now apply in_map.
Qed.

(** X3: an Insert of a new id appends the mapped row, and the Delete of
    that id takes the collection back to what it was. *)
Theorem X3_insert_then_delete (flights : list Flight.t) (r d : FlightRow.t) :
  ~ In (FlightRow.id r) (map Flight.id flights) ->
  FlightRow.id d = FlightRow.id r ->
  apply flights (Insert r) = flights ++ [flightOfRow r]
  /\ applyAll flights [Insert r; Delete d] = flights.
Proof.
  intros Hnew Hd. simpl. unfold onInsert.
  destruct (existsb _ flights) eqn:E; [apply existsb_id in E; contradiction|].
  split; [reflexivity|].
  unfold onDelete. rewrite filter_app.
  replace (filter _ [flightOfRow r]) with (@nil Flight.t)
    by (simpl; now rewrite Hd, String.eqb_refl).
  rewrite app_nil_r, Hd.
  clear E. induction flights as [|f l IH]; simpl; [reflexivity|].
  simpl in Hnew.
  destruct (String.eqb_spec (Flight.id f) (FlightRow.id r)) as [Ef|_]; simpl.
  - exfalso. apply Hnew. now left.
  - f_equal. apply IH. intros H. apply Hnew. now right.
Qed.

(** X4: a notification delivered twice has the effect of one delivery. *)
Theorem X4_duplicate_delivery (flights : list Flight.t) (e : event) :
  applyAll flights [e; e] = apply flights e.
Proof.
  destruct e as [r|r|r]; simpl.
  - unfold onInsert at 1.
    replace (existsb _ (onInsert r flights)) with true; [reflexivity|].
    symmetry. apply existsb_id. unfold onInsert.
    destruct (existsb _ flights) eqn:E; [now apply existsb_id|].
    rewrite map_app, in_app_iff. right. now left.
  - unfold onUpdate. rewrite map_map. apply map_ext. intros f.
    destruct (String.eqb_spec (Flight.id f) (FlightRow.id r)) as [E|N].
    + now rewrite flightOfRow_id, String.eqb_refl.
    + now destruct (String.eqb_spec (Flight.id f) (FlightRow.id r)).
  - unfold onDelete.
    induction flights as [|f l IH]; simpl; [reflexivity|].
    destruct (Flight.id f =? FlightRow.id r) eqn:E; simpl; [exact IH|].
    rewrite E. simpl. now f_equal.
Qed.

End RealtimeInvariants.

Lemma X1_witness :
  NoDup (map Flight.id
           (FlightSummaryOverview.applyAll []
              [FlightSummaryOverview.Insert (Sample.row "a" JS.null);
               FlightSummaryOverview.Insert (Sample.row "a" (JS.val 1%float));
               FlightSummaryOverview.Update (Sample.row "a" (JS.val 2%float))])).
Proof.
  apply X1_realtime_keeps_ids_unique. constructor.
Defined.

Lemma X3_witness :
  FlightSummaryOverview.applyAll [FlightSummaryOverview.flightOfRow (Sample.row "a" JS.null)]
    [FlightSummaryOverview.Insert (Sample.row "b" JS.null);
     FlightSummaryOverview.Delete (Sample.row "b" (JS.val 1%float))]
  = [FlightSummaryOverview.flightOfRow (Sample.row "a" JS.null)].
Proof.
  apply (X3_insert_then_delete
           [FlightSummaryOverview.flightOfRow (Sample.row "a" JS.null)]
           (Sample.row "b" JS.null) (Sample.row "b" (JS.val 1%float))).
  - intros [H|[]]. discriminate.
  - reflexivity.
Defined.

(** ** Groups *)

Section Groups.

Context {A V : Type}.
Variable key : A -> string.
Variable keep : A -> bool.
Variable size : V -> nat.

Lemma groups_nil : JS.groups key keep size [] [].
Proof.
  split; [constructor|]. split; [|constructor].
  intros k. split; [intros []|intros [x [[] _]]].
Qed.

Lemma upsert_sizes (o : JS.object V) k init f :
  (forall v, (1 <= size (f v))%nat) ->
  Forall (fun p => (1 <= size (snd p))%nat) o ->
  Forall (fun p => (1 <= size (snd p))%nat) (JS.upsert o k init f).
Proof.
  intros Hf. unfold JS.upsert.
  generalize (f match JS.get o k with Some v => v | None => init end) (Hf match JS.get o k with Some v => v | None => init end).
  intros v Hv. induction o as [|[k' v'] o IH]; simpl; intros H.
  - repeat constructor. exact Hv.
  - inversion H; subst. destruct (k' =? k); constructor; auto.
Qed.

Lemma groups_upsert (o : JS.object V) (done : list A) (x : A) init f :
  (forall v, (1 <= size (f v))%nat) ->
  keep x = true ->
  JS.groups key keep size o done ->
  JS.groups key keep size (JS.upsert o (key x) init f) (done ++ [x]).
Proof.
  intros Hf Hx [Hnd [Hkeys Hsize]]. split; [|split].
  - apply set_keys_NoDup, Hnd.
  - intros k. unfold JS.upsert. rewrite set_keys_In, Hkeys. split.
    + intros [->|[y [Hy [Ky Ey]]]].
      * exists x. rewrite in_app_iff. simpl. auto.
      * exists y. rewrite in_app_iff. auto.
    + intros [y [Hy [Ky Ey]]]. apply in_app_iff in Hy. destruct Hy as [Hy|[<-|[]]].
      * right. eauto.
      * left. now symmetry.
  - now apply upsert_sizes.
Qed.



End Groups.

Section SummaryGroups.

Import FlightSummaryOverview.





End SummaryGroups.

(** ** Hours that cannot be negative *)

Section SummaryHours.

Import FlightSummaryOverview.
Local Open Scope float_scope.

Lemma zero_notNegative : JS.notNegative 0.
Proof. exact I. Qed.


Lemma tachDiffOf_notNegative (flight : Flight.t) : JS.notNegative (tachDiffOf flight).
Proof.
  unfold tachDiffOf, JS.gt.
  destruct (numeric (Flight.tachStart flight) <? numeric (Flight.tachEnd flight)) eqn:C.
  - apply (sub_ordered _ _ C).
  - exact zero_notNegative.
Qed.

(** X6: in the flight summary the tach difference of a flight is a number
    that is never negative (and never [NaN]), whatever the two readings
    hold: missing, unreadable, or an end below the start. *)
Theorem X6_tach_difference_never_negative (flight : Flight.t) :
  JS.notNegative (tachDiffOf flight)
  /\ JS.lt (tachDiffOf flight) 0 = false
  /\ PrimFloat.is_nan (tachDiffOf flight) = false.
Proof.
  split; [apply tachDiffOf_notNegative|].
  apply notNegative_facts, tachDiffOf_notNegative.
Qed.



End SummaryHours.


(** ** More on the route analytics *)

Section RouteTable.

Import RouteAnalyticsContent.

Variable newDate : string -> option Date.t.
Variable localeCompare : string -> string -> JS.number.






(** [find] with two predicates that agree. *)
Lemma find_ext {A} (p q : A -> bool) (l : list A) :
  (forall x, p x = q x) -> find p l = find q l.
Proof.
  intros H. induction l as [|x l IH]; simpl; [reflexivity|]. now rewrite H, IH.
Qed.

(** X9: with the four filters at "all", a target is matched by its route
    alone: the target time shown for a route is that of the first target in
    the collection that carries the route, whatever aircraft, pilot, month
    or year that target is for, and later targets for the route are never
    looked at. *)
Theorem X9_unfiltered_target_is_first_for_route
    (targetTimes : list RouteTargetTime.t) (route : string) :
  (forall t, targetMatches resetFilters route t = (RouteTargetTime.route t =? route))
  /\ find (targetMatches resetFilters route) targetTimes
     = find (fun t => RouteTargetTime.route t =? route) targetTimes
  /\ (forall t rest x,
        RouteTargetTime.route t = route ->
        RouteTargetTime.targetTime t = JS.val x ->
        targetTimeFor (t :: rest) resetFilters route
        = if JS.truthy_number x then Some x else None).
Proof.
  assert (M : forall t, targetMatches resetFilters route t = (RouteTargetTime.route t =? route)).
  { intros t. unfold targetMatches. simpl. now rewrite !andb_true_r. }
  split; [exact M|]. split; [apply find_ext, M|].
  intros t rest x Hr Hx. unfold targetTimeFor. simpl.
  rewrite M, Hr, String.eqb_refl, Hx. reflexivity.
Qed.

(** X10: [toggleSort] on the current column keeps the column and flips the
    direction, so twice in a row it changes nothing; on another column it
    selects that column ascending, whatever the direction was. *)
Theorem X10_toggle_sort (field sortField : Field.t) (sortDirection : direction) :
  toggleSort sortField (toggleSort sortField (sortField, sortDirection))
  = (sortField, sortDirection)
  /\ fst (toggleSort sortField (sortField, sortDirection)) = sortField
  /\ snd (toggleSort sortField (sortField, sortDirection)) <> sortDirection
  /\ (field <> sortField -> toggleSort field (sortField, sortDirection) = (field, asc)).
Proof.
  assert (R : sameField sortField sortField = true) by (destruct sortField; reflexivity).
  unfold toggleSort. rewrite R. cbn [fst snd]. rewrite R.
  split; [destruct sortDirection; reflexivity|].
  split; [reflexivity|]. split; [destruct sortDirection; discriminate|].
  intros N. destruct sortField, field; try reflexivity; contradiction.
Qed.

End RouteTable.

Lemma X9_witness :
  RouteAnalyticsContent.targetTimeFor
    [Sample.target "ABC" 1.5%float; Sample.target "ABC" 2%float]
    RouteAnalyticsContent.resetFilters "ABC"
  = Some 1.5%float.
Proof.
  apply (proj2 (proj2 (X9_unfiltered_target_is_first_for_route
                         [Sample.target "ABC" 1.5%float; Sample.target "ABC" 2%float] "ABC"))
           (Sample.target "ABC" 1.5%float) [Sample.target "ABC" 2%float] 1.5%float);
    reflexivity.
Defined.

(** ** The years offered by the year filter *)

Section Years.

Local Open Scope float_scope.

(** Two numbers that are [===] are the same number or two zeros. *)
Lemma SFcompare_Eq (x y : spec_float) :
  SFcompare x y = Some Eq ->
  x = y \/ (exists s s', x = S754_zero s /\ y = S754_zero s').
Proof.
  destruct x as [sx|sx| |sx mx ex], y as [sy|sy| |sy my ey]; simpl;
    try discriminate; try (destruct sx; discriminate); try (destruct sy; discriminate).
  - right. eauto.
  - destruct sx, sy; try discriminate; auto.
  - assert (C : forall a b, PosDef.Pos.compare_cont Eq a b = (a ?= b)%positive) by reflexivity.
    rewrite C. intros H. left.
    destruct sx, sy; try discriminate;
      destruct (Z.compare_spec ex ey); try discriminate;
      destruct (Pos.compare_spec mx my); try discriminate; now subst.
Qed.

Lemma eqb_right (x y z : float) : (x =? y) = true -> (z =? x) = (z =? y).
Proof.
  rewrite !FloatAxioms.eqb_spec. unfold SFeqb. intros H.
  destruct (SFcompare (Prim2SF x) (Prim2SF y)) as [[ | | ]|] eqn:E; try discriminate.
  apply SFcompare_Eq in E. destruct E as [->|[s [s' [-> ->]]]]; [reflexivity|].
  now destruct (Prim2SF z) as [sz|sz| |sz mz ez].
Qed.

Lemma eqb_self (x y : float) : (x =? y) = true -> (y =? y) = true /\ (y =? x) = true.
Proof.
  rewrite !FloatAxioms.eqb_spec. unfold SFeqb. intros H.
  destruct (SFcompare (Prim2SF x) (Prim2SF y)) as [[ | | ]|] eqn:E; try discriminate.
  destruct (SFcompare_Eq _ _ E) as [D|[s [s' [E1 E2]]]].
  - rewrite <- D. rewrite SFcompare_refl; [auto|].
    intros N. rewrite <- D, N in E. discriminate.
  - rewrite E1, E2. auto.
Qed.

Lemma indexOf_eqb (l : list float) (x y : float) :
  (x =? y) = true -> JS.indexOf l x = JS.indexOf l y.
Proof.
  intros H. induction l as [|z l IH]; simpl; [reflexivity|].
  now rewrite (eqb_right x y z H), IH.
Qed.

Lemma indexOf_found (l : list float) (v : float) (i : nat) :
  JS.indexOf l v = Some i -> exists x, nth_error l i = Some x /\ (x =? v) = true.
Proof.
  revert i. induction l as [|z l IH]; simpl; intros i; [discriminate|].
  destruct (z =? v) eqn:E.
  - intros [= <-]. exists z. split; [reflexivity|exact E].
  - destruct (JS.indexOf l v) as [j|]; simpl; [|discriminate].
    intros [= <-]. simpl. now apply IH.
Qed.

Lemma indexOf_exists (l : list float) (v x : float) :
  In x l -> (x =? v) = true -> exists i, JS.indexOf l v = Some i.
Proof.
  induction l as [|z l IH]; simpl; [intros []|].
  intros [->|Hx] E.
  - rewrite E. eauto.
  - destruct (z =? v); [eauto|]. destruct (IH Hx E) as [i ->]. simpl. eauto.
Qed.

(** No element in front of the first match matches. *)
Lemma indexOf_first (pre rest : list float) (v : float) :
  JS.indexOf (pre ++ rest) v = Some (List.length pre) ->
  forall a, In a pre -> (a =? v) = false.
Proof.
  induction pre as [|z pre IH]; simpl; [intros _ a []|].
  destruct (z =? v) eqn:E; [discriminate|].
  destruct (JS.indexOf (pre ++ rest) v) as [j|] eqn:I; simpl; [|discriminate].
  intros [= ->] a [<-|Ha]; [exact E|]. now apply IH.
Qed.

(** The elements kept by the first-occurrence filter, counted against any
    value: at most one of them is [===] to it. *)
Lemma first_occurrences (years pre rest : list float) (v : float) :
  years = pre ++ rest ->
  let kept := JS.filter_from
                (fun value index =>
                   match JS.indexOf years value with
                   | Some i => (i =? index)%nat
                   | None => false
                   end) (List.length pre) rest in
  (forall b, In b kept -> In b rest /\ (b =? b) = true
                          /\ forall a, In a pre -> (a =? b) = false)
  /\ (List.length (filter (fun x => (x =? v)%float) kept) <= 1)%nat
  /\ ((exists a, In a pre /\ (a =? v) = true) -> filter (fun x => x =? v) kept = [])
  /\ (forall y, In y rest -> (y =? y) = true ->
                (exists a, In a pre /\ (a =? y) = true)
                \/ (exists b, In b kept /\ (b =? y) = true)).
Proof.
  revert pre. induction rest as [|x rest IH]; intros pre E; cbn zeta; simpl.
  - split; [intros b []|]. split; [lia|]. split; [reflexivity|intros y []].
  - specialize (IH (pre ++ [x])). rewrite <- app_assoc in IH. specialize (IH E).
    rewrite length_app, Nat.add_1_r in IH. cbn zeta in IH.
    set (p := fun value index =>
                match JS.indexOf years value with
                | Some i => (i =? index)%nat
                | None => false
                end) in *.
    destruct IH as [K [C [Z M]]].
    assert (Px : p x (List.length pre) = true ->
                 (x =? x) = true /\ forall a, In a pre -> (a =? x) = false).
    { unfold p. destruct (JS.indexOf years x) as [i|] eqn:I; [|discriminate].
      intros Hi. apply Nat.eqb_eq in Hi. subst i. split.
      - destruct (indexOf_found _ _ _ I) as [y [_ Hy]]. now apply eqb_self in Hy.
      - rewrite E in I. now apply indexOf_first with (rest := x :: rest). }
    change (match JS.indexOf years x with
            | Some i => (i =? List.length pre)%nat
            | None => false
            end) with (p x (List.length pre)).
    destruct (p x (List.length pre)) eqn:P.
    + destruct (Px eq_refl) as [Rx Fx]. split; [|split; [|split]].
      * intros b [<-|Hb]; [auto|].
        destruct (K b Hb) as [Hin [Rb Fb]]. split; [auto|]. split; [exact Rb|].
        intros a Ha. apply Fb. rewrite in_app_iff. auto.
      * simpl. destruct (x =? v) eqn:Xv; [|exact C].
        rewrite Z; [simpl; lia|]. exists x. rewrite in_app_iff. simpl. auto.
      * intros [a [Ha Av]]. simpl.
        destruct (x =? v) eqn:Xv.
        -- rewrite <- (eqb_right x v a Xv), (Fx a Ha) in Av. discriminate.
        -- apply Z. exists a. rewrite in_app_iff. auto.
      * intros y [<-|Hy] Ry; [right; exists x; split; [left; reflexivity|exact Ry]|].
        destruct (M y Hy Ry) as [[a [Ha Ay]]|[b [Hb By]]].
        -- apply in_app_iff in Ha. destruct Ha as [Ha|[<-|[]]]; [left; eauto|].
           right. exists x. split; [left; reflexivity|exact Ay].
        -- right. exists b. split; [right; exact Hb|exact By].
    + assert (Ex : (x =? x) = true -> exists a, In a pre /\ (a =? x) = true).
      { intros Rx. unfold p in P.
        destruct (indexOf_exists years x x) as [i I]; [rewrite E, in_app_iff; simpl; auto|exact Rx|].
        rewrite I in P. apply Nat.eqb_neq in P.
        destruct (indexOf_found _ _ _ I) as [y [Ny Hy]].
        rewrite E in Ny.
        destruct (Nat.lt_ge_cases i (List.length pre)) as [L|G].
        - rewrite nth_error_app1 in Ny by exact L.
          exists y. split; [now apply nth_error_In in Ny|exact Hy].
        - exfalso. apply P.
          destruct (Nat.eq_dec i (List.length pre)) as [->|Ne]; [reflexivity|].
          (* the first match cannot come after [x] itself *)
          clear - I E Rx G Ne. subst years.
          assert (Q : forall (pre : list float) i,
                     JS.indexOf (pre ++ x :: rest) x = Some i -> (i <= List.length pre)%nat).
          { clear. intros pre. induction pre as [|z pre IH]; simpl; intros i.
            - destruct (x =? x) eqn:R; [intros [= <-]; lia|].
              intros H. exfalso. revert H.
              destruct (JS.indexOf rest x) eqn:J; simpl; [|discriminate].
              intros [= <-].
              destruct (indexOf_found _ _ _ J) as [y [_ Hy]].
              apply eqb_self in Hy. destruct Hy as [Hy _]. congruence.
            - destruct (z =? x); [intros [= <-]; lia|].
              destruct (JS.indexOf (pre ++ x :: rest) x) as [j|] eqn:J; simpl; [|discriminate].
              intros [= <-]. specialize (IH j eq_refl). lia. }
          specialize (Q pre i I). lia. }
      split; [|split; [|split]].
      * intros b Hb. destruct (K b Hb) as [Hin [Rb Fb]]. split; [auto|]. split; [exact Rb|].
        intros a Ha. apply Fb. rewrite in_app_iff. auto.
      * exact C.
      * intros [a [Ha Av]]. apply Z. exists a. rewrite in_app_iff. auto.
      * intros y [<-|Hy] Ry; [left; now apply Ex|].
        destruct (M y Hy Ry) as [[a [Ha Ay]]|[b [Hb By]]]; [|right; eauto].
        apply in_app_iff in Ha. destruct Ha as [Ha|[<-|[]]]; [left; eauto|].
        destruct (Ex (proj1 (eqb_self _ _ (proj2 (eqb_self _ _ Ay))))) as [c [Hc Cx]].
        left. exists c. split; [exact Hc|].
        rewrite <- (eqb_right _ y c Ay). exact Cx.
Qed.

Lemma filter_perm {A} (p : A -> bool) {l l' : list A} :
  Permutation l l' -> Permutation (filter p l) (filter p l').
Proof.
  induction 1 as [|x l l' _ IH|x y l|l l' l'' _ IH1 _ IH2]; simpl.
  - constructor.
  - destruct (p x); [now constructor|exact IH].
  - destruct (p x), (p y); try reflexivity. apply perm_swap.
  - now transitivity (filter p l').
Qed.

Import RouteAnalyticsContent.

Variable newDate : string -> option Date.t.

(** X11: the years of the year filter.  No entry is [NaN] (a flight whose
    date does not parse offers no year); no two entries are equal; every
    entry is the year of a flight; and the year of every flight whose date
    parses is an entry. *)
Theorem X11_unique_years (flights : list Flight.t) :
  let years := map (fun f => Date.getFullYear (newDate (Flight.date f))) flights in
  (forall y, In y (uniqueYears newDate flights) ->
             PrimFloat.is_nan y = false /\ In y years)
  /\ (forall v, (List.length (filter (fun y => (y =? v)%float) (uniqueYears newDate flights)) <= 1)%nat)
  /\ (forall f, In f flights ->
                PrimFloat.is_nan (Date.getFullYear (newDate (Flight.date f))) = false ->
                exists y, In y (uniqueYears newDate flights)
                          /\ (y =? Date.getFullYear (newDate (Flight.date f))) = true).
Proof.
  intros years. unfold uniqueYears. fold years.
  set (kept := JS.filter_from _ 0%nat years).
  assert (S : Permutation (JS.sort (fun a b => b - a) kept) kept) by apply sort_perm.
  split; [|split].
  - intros y Hy. apply (Permutation_in _ S) in Hy.
    destruct (first_occurrences years [] years 0 eq_refl) as [K _].
    destruct (K y Hy) as [Hin [Ry _]].
    split; [|exact Hin]. unfold PrimFloat.is_nan. now rewrite Ry.
  - intros v.
    destruct (first_occurrences years [] years v eq_refl) as [_ [C _]].
    rewrite (Permutation_length (filter_perm (fun y => y =? v) S)). exact C.
  - intros f Hf Nf.
    destruct (first_occurrences years [] years 0 eq_refl) as [_ [_ [_ M]]].
    destruct (M (Date.getFullYear (newDate (Flight.date f)))) as [[a [[] _]]|[b [Hb By]]].
    + unfold years. apply in_map_iff. eauto.
    + unfold PrimFloat.is_nan in Nf. now destruct (_ =? _).
    + exists b. split; [|exact By]. apply (Permutation_in _ (Permutation_sym S)), Hb.
Qed.

End Years.

(** ** The passenger summary *)

Section PassengerTables.

Import PassengerSummaryContent.






End PassengerTables.

(** ** The months of the passenger trend *)

Section MonthlyCounts.

Import PassengerSummaryContent.
Local Open Scope Z_scope.









Variable newDate : string -> option Date.t.



End MonthlyCounts.


(** ** The fuel analysis *)

Section FuelRows.

Import FuelAnalysisContent.

(** A property that ties each stored value to its key, kept by each
    update. *)
Lemma upsert_keyed {V} (P : string -> V -> Prop) (o : JS.object V) k init f :
  P k init -> (forall v, P k v -> P k (f v)) ->
  Forall (fun p => P (fst p) (snd p)) o ->
  Forall (fun p => P (fst p) (snd p)) (JS.upsert o k init f).
Proof.
  intros Hinit Hf. unfold JS.upsert.
  induction o as [|[k' v'] o IH]; simpl; intros H.
  - repeat constructor. simpl. auto.
  - inversion H as [|? ? Hv Ho]; subst. simpl in Hv.
    destruct (k' =? k) eqn:E; constructor; simpl; auto.
    apply String.eqb_eq in E. subst k'. auto.
Qed.

Lemma NoDup_map_filter {X Y} (h : X -> Y) (q : X -> bool) (l : list X) :
  NoDup (map h l) -> NoDup (map h (filter q l)).
Proof.
  induction l as [|x l IH]; simpl; [auto|].
  intros H. inversion H as [|? ? Hx Hl]; subst.
  destruct (q x); simpl; [|auto].
  constructor; [|auto].
  intros Hin. apply Hx. apply in_map_iff in Hin. destruct Hin as [y [E Hy]].
  apply filter_In in Hy. rewrite <- E. apply in_map, Hy.
Qed.

Lemma fuel_byAircraft_groups (aircraft : list Aircraft.t) (flights : list Flight.t) :
  JS.groups (fun f => JS.ToPropertyKey (Flight.aircraftId f)) (fun _ => true)
    (fun _ : Stat.t => 1%nat) (byAircraft aircraft flights) flights.
Proof.
  unfold byAircraft.
  apply (fold_left_invariant
           (JS.groups (fun f => JS.ToPropertyKey (Flight.aircraftId f)) (fun _ => true)
              (fun _ : Stat.t => 1%nat))); [apply groups_nil|].
  intros o done f H.
  apply (groups_upsert (fun f => JS.ToPropertyKey (Flight.aircraftId f))); auto.
Qed.

Lemma fuel_byAircraft_keyed (aircraft : list Aircraft.t) (flights : list Flight.t) :
  Forall (fun p => Stat.aircraftId (snd p) = fst p) (byAircraft aircraft flights).
Proof.
  unfold byAircraft.
  apply (fold_left_invariant
           (fun (o : JS.object Stat.t) (_ : list Flight.t) =>
              Forall (fun p => Stat.aircraftId (snd p) = fst p) o)); [constructor|].
  intros o done f H.
  apply (upsert_keyed (fun k st => Stat.aircraftId st = k)); auto.
Qed.

(** X14: the rows of the fuel analysis.  Every row has flown more than 0
    hours and taken more than 0 of fuel, and its fuel per hour is the
    quotient of the two, rounded to two decimals, never the 0 of the other
    branch; no two rows are of the same aircraft id; and every row is the
    aircraft id of a flight, where a flight without an aircraft id stands
    for the id "undefined" (or "null"). *)
Theorem X14_fuel_rows_have_hours_and_fuel
    (aircraft : list Aircraft.t) (flights : list Flight.t) :
  NoDup (map Stat.aircraftId (fuelAnalysisByAircraft aircraft flights))
  /\ (forall r, In r (fuelAnalysisByAircraft aircraft flights) ->
        JS.gt (Stat.totalHours r) 0%float = true
        /\ JS.gt (Stat.totalFuel r) 0%float = true
        /\ Stat.fuelPerHour r = JS.round_to 2 (Stat.totalFuel r / Stat.totalHours r)%float
        /\ exists f, In f flights
                     /\ JS.ToPropertyKey (Flight.aircraftId f) = Stat.aircraftId r).
Proof.
  unfold fuelAnalysisByAircraft. cbn zeta.
  set (o := byAircraft aircraft flights).
  pose proof (fuel_byAircraft_groups aircraft flights) as [Hnd [Hkeys _]].
  pose proof (fuel_byAircraft_keyed aircraft flights) as Hkeyed.
  fold o in Hnd, Hkeys, Hkeyed.
  assert (Ke : Forall (fun p => Stat.aircraftId (snd p) = fst p) (JS.entries o)).
  { apply (Permutation_Forall (Permutation_sym (entries_perm o)) Hkeyed). }
  match goal with
  | |- context [JS.sort ?cmp (filter ?q (map ?g (JS.values o)))] =>
      set (rows := filter q (map g (JS.values o)));
      assert (S : Permutation (JS.sort cmp rows) rows) by apply sort_perm;
      assert (Ids : map Stat.aircraftId (map g (JS.values o)) = map fst (JS.entries o))
  end.
  { unfold JS.values. rewrite !map_map. apply map_ext_in.
    intros p Hp. rewrite Forall_forall in Ke. apply (Ke p Hp). }
  split.
  - apply (Permutation_NoDup (Permutation_sym (Permutation_map _ S))).
    apply NoDup_map_filter. rewrite Ids.
    apply (Permutation_NoDup (Permutation_sym (Permutation_map fst (entries_perm o))) Hnd).
  - intros r Hr. apply (Permutation_in _ S) in Hr.
    apply filter_In in Hr. destruct Hr as [Hr Q].
    apply andb_true_iff in Q. destruct Q as [Qh Qf].
    split; [exact Qh|]. split; [exact Qf|].
    apply in_map_iff in Hr. destruct Hr as [st [<- Hst]].
    cbn [Stat.totalHours Stat.totalFuel Stat.fuelPerHour Stat.aircraftId] in *.
    rewrite Qh. split; [reflexivity|].
    unfold JS.values in Hst. apply in_map_iff in Hst. destruct Hst as [p [<- Hp]].
    rewrite Forall_forall in Ke. rewrite (Ke p Hp).
    assert (Hk : In (fst p) (map fst o)).
    { apply in_map. apply (Permutation_in _ (entries_perm o)), Hp. }
    apply Hkeys in Hk. destruct Hk as [f [Hf [_ E]]]. eauto.
Qed.

End FuelRows.

(** ** More on the flight entry form *)

Section FormReadings.

Import FlightForm.
Local Open Scope float_scope.

Lemma Math_max_0_not_below_zero (x : float) : (JS.Math_max 0 x <? 0) = false.
Proof.
  unfold JS.Math_max. change (PrimFloat.is_nan 0) with false. cbn [orb].
  destruct (PrimFloat.is_nan x); [reflexivity|].
  destruct (0 <? x) eqn:P; [now apply ltb_asym|].
  destruct (x <? 0); reflexivity.
Qed.

Lemma derivedHobbs_not_below_zero (v : values) : (derivedHobbs v <? 0) = false.
Proof. apply mul_12_not_below_zero, Math_max_0_not_below_zero. Qed.

(** Two numbers in order are numbers. *)
Lemma ltb_not_nan (b a : float) :
  (b <? a) = true -> PrimFloat.is_nan b = false /\ PrimFloat.is_nan a = false.
Proof.
  unfold PrimFloat.is_nan.
  rewrite FloatAxioms.ltb_spec, !FloatAxioms.eqb_spec. unfold SFltb, SFeqb.
  intros H.
  destruct (Prim2SF b) as [sb|sb| |sb mb eb] eqn:B; try discriminate;
    destruct (Prim2SF a) as [sa|sa| |sa ma ea] eqn:A; try discriminate;
    rewrite !SFcompare_refl by discriminate; auto.
Qed.

Lemma leb_ltb_zero (b a : float) :
  (0 <=? b) = true -> (b <? a) = true -> (0 <=? a) = true.
Proof.
  rewrite !FloatAxioms.leb_spec, FloatAxioms.ltb_spec. unfold SFleb, SFltb.
  change (Prim2SF 0) with (S754_zero false).
  destruct (Prim2SF b) as [sb|[]| |[] mb eb]; simpl; try discriminate;
    destruct (Prim2SF a) as [sa|[]| |[] ma ea]; simpl; try discriminate; auto.
Qed.

(** X15: as long as no flight is loaded into the form, the hobbs time it
    holds is never below 0 (the test [h < 0] is false), whatever is typed
    into the tach fields and in whatever order: an end reading below the
    start reading and a cleared field ([NaN]) included. *)
Theorem X15_form_hobbs_time_is_never_below_zero (es : list event) :
  Forall (fun e => isReset e = false) es ->
  exists h, hobbsTime (current (run es)) = JS.val h /\ (h <? 0) = false.
Proof.
  intros H. destruct (run_settled es H) as [_ [_ [_ Hh]]].
  exists (derivedHobbs (current (run es))). split; [exact Hh|].
  apply derivedHobbs_not_below_zero.
Qed.

(** X16: the form accepts an end reading below the start reading.  When no
    flight was loaded and the tach fields hold [a] and [b] with
    [0 <= b < a], the three numeric fields pass the schema, and the values
    handed to [onSubmit] carry the two readings as typed and a hobbs time
    of 0. *)
Theorem X16_form_accepts_a_tach_regression (es : list event) (a b : float) :
  Forall (fun e => isReset e = false) es ->
  tachStart (current (run es)) = JS.val a ->
  tachEnd (current (run es)) = JS.val b ->
  (0 <=? b) = true -> (b <? a) = true ->
  submitted (run es)
  = Some {| tachStart := JS.val a; tachEnd := JS.val b; hobbsTime := JS.val 0 |}.
Proof.
  intros H Ea Eb Pb Lt. destruct (run_settled es H) as [_ [_ [_ Hh]]].
  destruct (ltb_not_nan b a Lt) as [Nb Na].
  pose proof (leb_ltb_zero b a Pb Lt) as Pa.
  assert (Z : derivedHobbs (current (run es)) = 0).
  { unfold derivedHobbs. rewrite Ea, Eb. simpl ensureNumber. rewrite Na, Nb.
    rewrite (Math_max_notPositive _ (proj2 (sub_ordered a b Lt))). reflexivity. }
  rewrite Z in Hh. unfold submitted. rewrite Ea, Eb, Hh.
  unfold validNumber. rewrite Na, Nb, Pa, Pb. simpl.
  destruct (current (run es)) as [ts te h]. simpl in *. now subst.
Qed.

End FormReadings.

Lemma X15_witness :
  exists h, FlightForm.hobbsTime
              (FlightForm.current (FlightForm.run [FlightForm.ChangeTachStart 5%float]))
            = JS.val h
            /\ (h <? 0)%float = false.
Proof.
  apply (X15_form_hobbs_time_is_never_below_zero [FlightForm.ChangeTachStart 5%float]).
  repeat constructor.
Defined.

Lemma X16_witness :
  FlightForm.submitted
    (FlightForm.run [FlightForm.ChangeTachStart 100%float; FlightForm.ChangeTachEnd 90%float])
  = Some {| FlightForm.tachStart := JS.val 100%float;
            FlightForm.tachEnd := JS.val 90%float;
            FlightForm.hobbsTime := JS.val 0%float |}.
Proof.
  apply (X16_form_accepts_a_tach_regression
           [FlightForm.ChangeTachStart 100%float; FlightForm.ChangeTachEnd 90%float]);
    try reflexivity.
  repeat constructor.
Defined.

(** ** The flight logbook list *)

Section Logbook.

Import FlightList.

Lemma confirmDelete_flights (answer : outcome unit) (s : state) (f : Flight.t) :
  In f (flights (confirmDelete answer s)) -> In f (flights s).
Proof.
  unfold confirmDelete.
  destruct (flightToDelete s) as [id|]; [|auto].
  destruct (id =? ""); [auto|]. cbn [flights].
  destruct answer; auto. intros H. now apply filter_In in H.
Qed.

(** X17: the logbook lists only what the service sent.  After any
    sequence of fetches, clicks on a delete button and confirmations,
    every flight listed was carried by a successful answer to a fetch; a
    failed or throwing fetch or delete leaves the list as it was; and
    after the confirmation of a delete with a successful answer the list
    is the one before without the flights of the clicked id, in the same
    order, and the dialog is closed. *)
Theorem X17_logbook_lists_only_fetched_flights :
  (forall es f,
      In f (flights (fold_left step es initial)) ->
      exists e, In e es /\ In f (fetchedBy e))
  /\ (forall s, flights (step s (Fetched Failed)) = flights s
                /\ flights (step s (Fetched Threw)) = flights s
                /\ flights (step s (Fetched (Succeeded None))) = flights s
                /\ flights (step s (DeleteConfirmed Failed)) = flights s
                /\ flights (step s (DeleteConfirmed Threw)) = flights s)
  /\ (forall s id answer,
        id <> "" ->
        let s' := step (step s (DeleteClicked id)) (DeleteConfirmed answer) in
        deleteDialogOpen s' = false
        /\ flightToDelete s' = None
        /\ flights s'
           = match answer with
             | Succeeded _ => filter (fun flight => negb (Flight.id flight =? id)) (flights s)
             | _ => flights s
             end).
Proof.
  split; [|split].
  - intros es.
    apply (fold_left_invariant
             (fun s done => forall f, In f (flights s) ->
                                      exists e, In e done /\ In f (fetchedBy e))).
    + intros f [].
    + intros s done e IH f Hf.
      assert (Old : In f (flights s) -> exists e', In e' (done ++ [e]) /\ In f (fetchedBy e')).
      { intros H. destruct (IH f H) as [e' [He' Hf']]. exists e'.
        rewrite in_app_iff. auto. }
      destruct e as [answer|id|answer]; cbn [step] in Hf.
      * destruct answer as [[fetchedFlights|]| |]; cbn [fetchFlights flights] in Hf; auto.
        exists (Fetched (Succeeded (Some fetchedFlights))).
        rewrite in_app_iff. simpl. auto.
      * auto.
      * apply Old, (confirmDelete_flights answer s f Hf).
  - intros s. unfold step, confirmDelete. cbn [fetchFlights flights].
    repeat split; destruct (flightToDelete s) as [id|]; try reflexivity;
      destruct (id =? ""); try reflexivity.
  - intros s id answer Hid s'. subst s'.
    unfold step, confirmDelete, handleDeleteClick. cbn [flightToDelete flights].
    destruct (id =? "") eqn:E; [apply String.eqb_eq in E; contradiction|].
    split; [reflexivity|]. split; [reflexivity|]. now destruct answer.
Qed.

End Logbook.

(** ** The search of the safety reports *)

Section SafetySearch.

Import SafetyList.

Variable toLowerCase : string -> string.

Lemma includes_empty (s : string) : JS.includes s "" = true.
Proof. destruct s; reflexivity. Qed.

Lemma fieldMatches_present (field : JS.opt string) (searchTerm : string) :
  fieldMatches toLowerCase field searchTerm = true ->
  match field with JS.val _ => true | _ => false end = true.
Proof. now destruct field. Qed.

(** X18: what the search of the safety reports lists.  Whatever the
    search term, the reports listed are reports of the list, in its order,
    and a report that has no description, category, reporter name or
    status is never listed.  With the empty search term, as long as the
    lower case of the empty string is the empty string, the reports listed
    are exactly those that have one of these fields. *)
Theorem X18_safety_search (reports : list SafetyReport.t) :
  toLowerCase "" = "" ->
  (forall searchTerm report,
      In report (filteredReports toLowerCase reports searchTerm) ->
      In report reports /\ hasText report = true)
  /\ filteredReports toLowerCase reports "" = filter hasText reports.
Proof.
  intros H. split.
  - intros searchTerm report Hr. unfold filteredReports in Hr.
    apply filter_In in Hr. destruct Hr as [Hin M]. split; [exact Hin|].
    unfold hasText. cbv beta zeta.
    repeat (apply orb_true_iff in M; destruct M as [M|M]);
      apply fieldMatches_present in M; rewrite M, ?orb_true_r; reflexivity.
  - unfold filteredReports. apply filter_ext. intros report.
    unfold hasText, fieldMatches. rewrite H.
    destruct (SafetyReport.description report), (SafetyReport.category report),
      (SafetyReport.reporterName report), (SafetyReport.status report);
      rewrite ?includes_empty; reflexivity.
Qed.

End SafetySearch.

Lemma X18_witness :
  let report := SafetyReport.mk "r1" JS.undefined JS.null JS.undefined JS.undefined in
  SafetyList.filteredReports (fun s => s)
    [report; SafetyReport.mk "r2" (JS.val "Bird strike") JS.null JS.undefined JS.undefined] ""
  = filter SafetyList.hasText
      [report; SafetyReport.mk "r2" (JS.val "Bird strike") JS.null JS.undefined JS.undefined].
Proof.
  apply (X18_safety_search (fun s => s)). reflexivity.
Defined.
